(** * Compressing an image file under a byte budget

    A shallow embedding of [file-helper.ts] (namespace [FileHelper]) and of the
    public entry point [compress].

    - JavaScript numbers are modelled by [number]: [NaN], the two infinities
      and the finite values.  Finite doubles are idealised as exact rationals
      (no rounding, no signed zero); the special values are kept because the
      code divides by quantities that can be zero and compares values that can
      be [NaN].  Where a property depends on the value of a product, a
      quotient or a difference, its statement leaves room for the rounding of
      double precision ([productSlack], [qualitySlack], one more step in the
      bound of the search), so that it is one the code meets as well.
    - Promises are modelled by [promise]: the browser requests a call has
      issued so far, together with its outcome.  [compressImage] calls itself
      on a quality that is not structurally smaller, so it takes a fuel
      argument; an exhausted fuel is the outcome [Pending].
    - The browser (image decoding, canvas serialisation) is a record of
      functions, [Browser], over which every definition is parameterised. *)

From Stdlib Require Import QArith Qround Qminmax ZArith NArith Bool String List.
From Stdlib Require Import Relations Sorted Lia Lqa.
From Stdlib Require Import Strings.Byte.
Import ListNotations.

Local Open Scope string_scope.
Local Open Scope Q_scope.
Set Warnings "-register-all".

(** ** JavaScript numbers *)

Inductive number : Type :=
| NaN
| PosInf
| NegInf
| Fin (q : Q).

Module Num.

Definition Qltb (a b : Q) : bool :=
  match a ?= b with Lt => true | _ => false end.

Definition Qleb (a b : Q) : bool :=
  match a ?= b with Gt => false | _ => true end.

(** [a < b]: false as soon as one side is [NaN]. *)
Definition lt (a b : number) : bool :=
  match a, b with
  | NaN, _ | _, NaN => false
  | Fin x, Fin y => Qltb x y
  | NegInf, (Fin _ | PosInf) => true
  | Fin _, PosInf => true
  | _, _ => false
  end.

(** [a <= b]. *)
Definition le (a b : number) : bool :=
  match a, b with
  | NaN, _ | _, NaN => false
  | Fin x, Fin y => Qleb x y
  | NegInf, _ => true
  | _, PosInf => true
  | _, _ => false
  end.

(** [a - b]. *)
Definition sub (a b : number) : number :=
  match a, b with
  | NaN, _ | _, NaN => NaN
  | Fin x, Fin y => Fin (x - y)
  | PosInf, PosInf | NegInf, NegInf => NaN
  | PosInf, _ | _, NegInf => PosInf
  | NegInf, _ | _, PosInf => NegInf
  end.

(** The infinity with the sign of the product of two signs; a zero sign
    gives [NaN] (infinity times zero). *)
Definition signedInf (s : comparison) : number :=
  match s with Gt => PosInf | Lt => NegInf | Eq => NaN end.

Definition sign (x : Q) : comparison := x ?= 0.

Definition flip (n : number) : number :=
  match n with PosInf => NegInf | NegInf => PosInf | _ => n end.

(** [a * b]. *)
Definition mul (a b : number) : number :=
  match a, b with
  | NaN, _ | _, NaN => NaN
  | Fin x, Fin y => Fin (x * y)
  | PosInf, PosInf | NegInf, NegInf => PosInf
  | PosInf, NegInf | NegInf, PosInf => NegInf
  | PosInf, Fin y | Fin y, PosInf => signedInf (sign y)
  | NegInf, Fin y | Fin y, NegInf => flip (signedInf (sign y))
  end.

(** [a / b].  A finite non-zero value divided by zero is an infinity, zero
    divided by zero is [NaN]; the only zero of the model is the positive
    one. *)
Definition div (a b : number) : number :=
  match a, b with
  | NaN, _ | _, NaN => NaN
  | Fin x, Fin y =>
      match sign y with
      | Eq => signedInf (sign x)
      | _ => Fin (x / y)
      end
  | Fin _, (PosInf | NegInf) => Fin 0
  | (PosInf | NegInf), (PosInf | NegInf) => NaN
  | PosInf, Fin y => match sign y with Lt => NegInf | _ => PosInf end
  | NegInf, Fin y => match sign y with Lt => PosInf | _ => NegInf end
  end.

(** [Math.min(a, b)]. *)
Definition min (a b : number) : number :=
  match a, b with
  | NaN, _ | _, NaN => NaN
  | _, _ => if lt b a then b else a
  end.

Definition ofN (n : N) : number := Fin (inject_Z (Z.of_N n)).

(** Conversion of a number to the IDL type [unsigned long]: the special
    values give 0, a finite value is truncated toward zero and reduced
    modulo 2^32. *)
Definition toUnsignedLong (a : number) : Z :=
  match a with
  | Fin x => (Z.quot (Qnum x) (Z.pos (Qden x)) mod 2 ^ 32)%Z
  | _ => 0%Z
  end.

End Num.

(** ** Errors *)

(** An [Error] object: its message and, when the property is present, its
    [cause]. *)
Inductive Error : Type :=
| mkError (message : string) (cause : option Error).

Definition message (e : Error) : string :=
  match e with mkError m _ => m end.

Definition cause (e : Error) : option Error :=
  match e with mkError _ c => c end.

(** [new Error(message, options)].  The constructor reads one property of its
    second argument, [cause], and only when the argument has it.  The callers
    below pass either nothing or an [Error] object. *)
Definition newError (msg : string) (options : option Error) : Error :=
  match options with
  | None => mkError msg None
  | Some o => mkError msg (cause o)
  end.

(** ** Files, images and the browser *)

Record Blob : Type := mkBlob {
  blob_bytes : list Byte.byte;
  blob_type : string
}.

Record File : Type := mkFile {
  bytes : list Byte.byte;
  name : string;
  type : string;
  lastModified : Z
}.

Definition size (f : File) : N := N.of_nat (List.length (bytes f)).

(** A loaded [HTMLImageElement]: the blob it was loaded from and its pixel
    dimensions. *)
Record HTMLImageElement : Type := mkImage {
  src : File;
  width : N;
  height : N
}.

(** The browser facilities the code calls.
    - [decode f] is the outcome of loading [f] into an [Image]: its pixel
      dimensions on [onload], [None] on [onerror].
    - [serialize image w h type quality] is the blob [canvas.toBlob] hands to
      its callback for a [w] x [h] canvas on which [image] was drawn; [None] is
      the [null] blob. *)
Record Browser : Type := mkBrowser {
  decode : File -> option (N * N);
  serialize : HTMLImageElement -> Z -> Z -> string -> number -> option Blob
}.

(** What a run asks of the browser, in order. *)
Inductive request : Type :=
| LoadImage (blob : File)
| DrawImage (image : HTMLImageElement) (dw dh : Z)
| ToBlob (w h : Z) (type : string) (quality : number).

(** ** Promises *)

Inductive outcome (A : Type) : Type :=
| Resolved (a : A)
| Rejected (e : Error)
| Pending.

Arguments Resolved {A} a.
Arguments Rejected {A} e.
Arguments Pending {A}.

Definition promise (A : Type) : Type := (list request * outcome A)%type.

Definition resolve {A : Type} (a : A) : promise A := ([], Resolved a).

Definition throw {A : Type} (e : Error) : promise A := ([], Rejected e).

Definition perform (r : request) : promise unit := ([r], Resolved tt).

(** [await p] followed by [k]. *)
Definition await {A B : Type} (p : promise A) (k : A -> promise B) : promise B :=
  match p with
  | (t, Resolved a) => let (t', r) := k a in ((t ++ t')%list, r)
  | (t, Rejected e) => (t, Rejected e)
  | (t, Pending) => (t, Pending)
  end.

(** [try { p } catch (error) { handler error }]. *)
Definition tryCatch {A : Type} (p : promise A) (handler : Error -> promise A) : promise A :=
  match p with
  | (t, Rejected e) => let (t', r) := handler e in ((t ++ t')%list, r)
  | _ => p
  end.

Declare Scope promise_scope.
Delimit Scope promise_scope with promise.
Notation "x <- p ;; k" := (await p (fun x => k))
  (at level 61, p at next level, right associativity) : promise_scope.
Notation "p ;;; k" := (await p (fun _ => k))
  (at level 61, right associativity) : promise_scope.
Local Open Scope promise_scope.

Definition settled {A : Type} (o : outcome A) : bool :=
  match o with Pending => false | _ => true end.

(** ** The canvas *)

(** Assignment to [canvas.width] or [canvas.height].  The attributes have type
    [unsigned long] and reflect a content attribute: a value above 2^31 - 1 is
    replaced by the attribute's default (300 for the width, 150 for the
    height). *)
Definition setCanvasDimension (default : Z) (value : number) : Z :=
  let v := Num.toUnsignedLong value in
  if (v <=? 2147483647)%Z then v else default.

(** ** [blobToImage] *)

Definition blobToImage (env : Browser) (blob : File) : promise HTMLImageElement :=
  perform (LoadImage blob) ;;;
  match decode env blob with
  | Some (w, h) => resolve (mkImage blob w h)
  | None => throw (newError "blobToImage(): blob is illegal" None)
  end.

(** [new File([blob as Blob], name, { type: blob?.type, lastModified })].  A
    [null] blob part is converted to the string ["null"], and [blob?.type] is
    then [undefined], which leaves the type empty. *)
Definition newFile (blob : option Blob) (name : string) (lastModified : Z) : File :=
  match blob with
  | Some b => mkFile (blob_bytes b) name (blob_type b) lastModified
  | None => mkFile [Byte.x6e; Byte.x75; Byte.x6c; Byte.x6c] name "" lastModified
  end.

(** ** File names *)

(** A regular expression, as far as the code uses one: its [test] method.  The
    expression is taken without the [g] and [y] flags, with which [test] would
    depend on the calls made before. *)
Record RegExp : Type := mkRegExp {
  test : string -> bool
}.

(** [IFileNameOptions]; [None] is an option left out. *)
Record IFileNameOptions : Type := mkFileNameOptions {
  maxLength : option number;
  invalidChars : option RegExp
}.

(** The reasons ["max-length"] and ["invalid-char"]. *)
Inductive FileNameReason : Type :=
| MaxLength
| InvalidChar.

Record IFileNameValidationResult : Type := mkFileNameValidationResult {
  result : bool;
  reason : option FileNameReason
}.

(** Whether a number is truthy: every number but zero and [NaN]. *)
Definition truthy (n : number) : bool :=
  match n with
  | NaN => false
  | Fin q => negb (Qeq_bool q 0)
  | _ => true
  end.

(** [s.length], one code unit per character of the string. *)
Definition lengthOf (s : string) : number := Num.ofN (N.of_nat (String.length s)).

Module FileHelper.

Definition isValidFileType (file : File) : bool :=
  String.eqb (type file) "image/png"
  || String.eqb (type file) "image/jpg"
  || String.eqb (type file) "image/jpeg"
  || String.eqb (type file) "application/pdf".

Definition isValidFileName (file : File) (options : IFileNameOptions)
  : IFileNameValidationResult :=
  if match maxLength options with
     | Some m => truthy m && Num.lt m (lengthOf (name file))
     | None => false
     end
  then mkFileNameValidationResult false (Some MaxLength)
  else
    if match invalidChars options with
       | Some re => test re (name file)
       | None => false
       end
    then mkFileNameValidationResult false (Some InvalidChar)
    else mkFileNameValidationResult true None.

Definition isValidSize (file : File) (maxSize : number) : bool :=
  Num.lt (Num.ofN (size file)) maxSize.

(** The options of [resampleImage]; [None] is an option left out.  The option
    [type] is the field [targetType]. *)
Record ResampleOptions : Type := mkResampleOptions {
  scale : number;
  quality : option number;
  targetType : option string
}.

Definition resampleImage (env : Browser) (file : File) (options : ResampleOptions)
  : promise File :=
  let scale := scale options in
  let quality := match quality options with Some q => q | None => Fin 1 end in
  let type := match targetType options with Some t => t | None => "image/jpeg" end in
  image <- blobToImage env file ;;
  let cvs_width := setCanvasDimension 300 (Num.mul (Num.ofN (width image)) scale) in
  let cvs_height := setCanvasDimension 150 (Num.mul (Num.ofN (height image)) scale) in
  perform (DrawImage image cvs_width cvs_height) ;;;
  perform (ToBlob cvs_width cvs_height type quality) ;;;
  let blob := serialize env image cvs_width cvs_height type quality in
  resolve (newFile blob (name file) (lastModified file)).

(** The options of [compressImage]; the option [quality] is the field
    [c_quality]. *)
Record CompressOptions : Type := mkCompressOptions {
  c_quality : option number;
  maxSize : number;
  minQuality : option number
}.

(** The values the destructuring at the top of [compressImage] binds. *)
Definition qualityOf (options : CompressOptions) : number :=
  match c_quality options with Some q => q | None => Fin 1 end.

Definition minQualityOf (options : CompressOptions) : number :=
  match minQuality options with Some q => q | None => Fin 0.1 end.

(** [{ ...options, quality: q }]. *)
Definition withQuality (options : CompressOptions) (q : number) : CompressOptions :=
  mkCompressOptions (Some q) (maxSize options) (minQuality options).

Fixpoint compressImage (env : Browser) (fuel : nat) (file : File)
  (options : CompressOptions) {struct fuel} : promise File :=
  match fuel with
  | O => ([], Pending)
  | S fuel' =>
      let quality := qualityOf options in
      let maxSize := maxSize options in
      let minQuality := minQualityOf options in
      if Num.lt quality minQuality || Num.le quality (Fin 0)
      then throw (newError "Unable to compress" None)
      else
        compressed <- resampleImage env file
                        (mkResampleOptions (Fin 1) (Some quality) None) ;;
        if isValidSize compressed maxSize then resolve compressed
        else
          let ratio := Num.div maxSize (Num.ofN (size compressed)) in
          let targetQuality :=
            Num.sub quality (Num.min (Num.div (Fin 0.025) ratio) (Fin 0.1)) in
          compressImage env fuel' file (withQuality options targetQuality)
  end.

End FileHelper.

(** ** [compress] *)

Definition nonCompressableFileTypes : list string := ["application/pdf"].

(** [Array.prototype.includes] on an array of strings. *)
Definition includes (l : list string) (s : string) : bool :=
  existsb (String.eqb s) l.

Definition compress (env : Browser) (fuel : nat) (file : File) (maxSize : number)
  : promise File :=
  tryCatch
    (let validDocSize := FileHelper.isValidSize file maxSize in
     if negb validDocSize && includes nonCompressableFileTypes (type file)
     then throw (newError "Unable to compress file" None)
     else
       compressedDocument <- FileHelper.resampleImage env file
                               (FileHelper.mkResampleOptions (Fin 0.9) None None) ;;
       if negb (FileHelper.isValidSize compressedDocument maxSize)
       then FileHelper.compressImage env fuel compressedDocument
              (FileHelper.mkCompressOptions None maxSize None)
       else resolve compressedDocument)
    (fun error => throw (newError "Unable to compress file due to error:" (Some error))).

(** ** A sample browser

    A small stand-in for a browser, used to run the definitions on concrete
    files.  An image file starts with two bytes giving its width and height.
    Serialising a canvas without pixels gives the [null] blob; otherwise the
    blob is the two dimension bytes followed by a payload whose length grows
    with the quality for ["image/jpeg"] and is fixed for the lossless
    ["image/png"], the type every other request falls back to. *)
Module Sample.

Definition byteOfZ (z : Z) : Byte.byte :=
  match Byte.of_N (Z.to_N z) with Some b => b | None => Byte.xff end.

(** A file whose first byte is ["%"] (as in a PDF header) is not an image. *)
Definition decode (f : File) : option (N * N) :=
  match bytes f with
  | Byte.x25 :: _ => None
  | w :: h :: _ => Some (Byte.to_N w, Byte.to_N h)
  | _ => None
  end.

(** A quality outside 0..1 is replaced by the encoder's default. *)
Definition effectiveQuality (quality : number) : Q :=
  match quality with
  | Fin q => if Num.Qleb 0 q && Num.Qleb q 1 then q else 0.92
  | _ => 0.92
  end.

Definition serialize (image : HTMLImageElement) (w h : Z) (type : string)
  (quality : number) : option Blob :=
  if ((w =? 0) || (h =? 0))%Z then None
  else if String.eqb type "image/jpeg"
  then Some (mkBlob
               (byteOfZ w :: byteOfZ h ::
                repeat Byte.x00 (Z.to_nat (Qfloor (effectiveQuality quality * 100))))
               "image/jpeg")
  else Some (mkBlob (byteOfZ w :: byteOfZ h :: repeat Byte.x00 100) "image/png").

Definition browser : Browser := mkBrowser decode serialize.

(** A 10 x 10 PNG file of five bytes. *)
Definition png : File :=
  mkFile [Byte.x0a; Byte.x0a; Byte.x01; Byte.x02; Byte.x03] "photo.png" "image/png" 1700000000000.

(** A 15 x 1 JPEG file. *)
Definition strip : File :=
  mkFile [Byte.x0f; Byte.x01; Byte.x01] "strip.jpg" "image/jpeg" 1700000000001.

(** A 15 x 7 JPEG file. *)
Definition banner : File :=
  mkFile [Byte.x0f; Byte.x07; Byte.x01] "banner.jpg" "image/jpeg" 1700000000003.

(** A PDF document of three bytes. *)
Definition pdf : File :=
  mkFile [Byte.x25; Byte.x50; Byte.x44] "form.pdf" "application/pdf" 1700000000002.

(** What [compress] returns for [png] under a budget of 60 bytes. *)
Definition compressed60 : File :=
  Eval vm_compute in
    match snd (compress browser 100 png (Fin 60)) with
    | Resolved r => r
    | _ => png
    end.

(** The expression [/\//]: a name with a slash in it. *)
Definition slash : RegExp :=
  mkRegExp (fun s => match index 0 "/" s with Some _ => true | None => false end).

(** What the search returns for [png] itself under a budget of 60 bytes. *)
Definition searched60 : File :=
  Eval vm_compute in
    match snd (FileHelper.compressImage browser 41 png
                 (FileHelper.mkCompressOptions None (Fin 60) None)) with
    | Resolved r => r
    | _ => png
    end.

End Sample.

(** ** Reading a run *)

(** The canvas serialisations a run requested: dimensions, type and quality
    of each [toBlob] call, in order. *)
Definition toBlobCalls (t : list request) : list (Z * Z * string * number) :=
  flat_map (fun r => match r with ToBlob w h ty q => [(w, h, ty, q)] | _ => [] end) t.

(** The qualities at which a run encoded. *)
Definition encodeQualities (t : list request) : list number :=
  map (fun c => snd c) (toBlobCalls t).


(** A number of calls that suffices for a search started at a given quality
    over a positive budget: every call that recurses lowers the quality by at
    least 0.025, and a quality of zero or less stops the search. *)
Definition searchBound (quality : number) : nat :=
  match quality with
  | Fin x => S (Z.to_nat (Qceiling (x * 40)))
  | _ => 1
  end.

(** The canvas on which a [w] x [h] image is drawn at a given scale: the two
    assignments to [cvs.width] and [cvs.height] in [resampleImage]. *)
Definition canvasOf (w h : N) (scale : number) : Z * Z :=
  (setCanvasDimension 300 (Num.mul (Num.ofN w) scale),
   setCanvasDimension 150 (Num.mul (Num.ofN h) scale)).

(** The test at the top of [compressImage]. *)
Definition exhausted (options : FileHelper.CompressOptions) : bool :=
  Num.lt (FileHelper.qualityOf options) (FileHelper.minQualityOf options)
  || Num.le (FileHelper.qualityOf options) (Fin 0).

(** The decrement [Math.min(0.025 / ratio, 0.1)] of [compressImage], where
    [ratio = maxSize / compressed.size]. *)
Definition qualityStep (maxSize : number) (candidateSize : N) : number :=
  Num.min (Num.div (Fin 0.025) (Num.div maxSize (Num.ofN candidateSize))) (Fin 0.1).

(** What the requests of a search on [file] look like: the file loaded and
    drawn is [file] itself, on a canvas of the image's dimensions at scale 1,
    and the canvas is serialised as ["image/jpeg"]. *)
Definition searchRequest (env : Browser) (file : File) (r : request) : Prop :=
  match r with
  | LoadImage f => f = file
  | DrawImage image dw dh =>
      src image = file /\ (dw, dh) = canvasOf (width image) (height image) (Fin 1)
  | ToBlob w h type _ =>
      type = "image/jpeg" /\
      exists iw ih : N, decode env file = Some (iw, ih) /\ (w, h) = canvasOf iw ih (Fin 1)
  end.

(** A browser that answers a request for ["image/jpeg"] with a JPEG blob, when
    it answers with a blob at all. *)
Definition honoursJpeg (env : Browser) : Prop :=
  forall (image : HTMLImageElement) (w h : Z) (quality : number) (b : Blob),
    serialize env image w h "image/jpeg" quality = Some b -> blob_type b = "image/jpeg".

(** The file [resampleImage] builds from the [null] blob: the four characters
    of ["null"], with no type. *)
Definition nullFile (name : string) (lastModified : Z) : File :=
  mkFile [Byte.x6e; Byte.x75; Byte.x6c; Byte.x6c] name "" lastModified.

(** A budget no file fits: a negative number or [NaN]. *)
Definition unpayable (budget : number) : Prop :=
  Num.lt budget (Fin 0) = true \/ budget = NaN.



(** The options [compress] passes to its pre-pass and to the search. *)
Definition prepassOptions : FileHelper.ResampleOptions :=
  FileHelper.mkResampleOptions (Fin 0.9) None None.

Definition searchOptions (budget : number) : FileHelper.CompressOptions :=
  FileHelper.mkCompressOptions None budget None.

(** The guard at the top of [compress]. *)
Definition refused (file : File) (budget : number) : bool :=
  negb (FileHelper.isValidSize file budget)
  && includes nonCompressableFileTypes (type file).

(** The error [compress] throws from its [catch] block when the error it
    caught has no cause of its own. *)
Definition umbrella : Error := mkError "Unable to compress file due to error:" None.

(** * Properties *)

(** ** Comparisons *)

Section Comparisons.

Lemma Qltb_lt (a b : Q) : Num.Qltb a b = true <-> a < b.
Proof.
  unfold Num.Qltb. rewrite Qlt_alt. destruct (a ?= b); intuition congruence.
Qed.

Lemma Qltb_ge (a b : Q) : Num.Qltb a b = false <-> b <= a.
Proof.
  split; intros H.
  - destruct (Qlt_le_dec a b) as [L|L]; [|exact L].
    apply Qltb_lt in L. congruence.
  - destruct (Num.Qltb a b) eqn:E; [|reflexivity].
    apply Qltb_lt in E. destruct (Qlt_not_le _ _ E H).
Qed.

Lemma Qleb_le (a b : Q) : Num.Qleb a b = true <-> a <= b.
Proof.
  unfold Num.Qleb. rewrite Qle_alt. destruct (a ?= b); intuition congruence.
Qed.

Lemma Qleb_gt (a b : Q) : Num.Qleb a b = false <-> b < a.
Proof.
  split; intros H.
  - destruct (Qlt_le_dec b a) as [L|L]; [exact L|].
    apply Qleb_le in L. congruence.
  - destruct (Num.Qleb a b) eqn:E; [|reflexivity].
    apply Qleb_le in E. destruct (Qlt_not_le _ _ H E).
Qed.

Lemma sign_Gt (x : Q) : 0 < x -> Num.sign x = Gt.
Proof. intros H. unfold Num.sign. now apply Qgt_alt. Qed.

(** [a < b] excludes [b < a], also on the special values. *)
Lemma lt_asym (a b : number) : Num.lt a b = true -> Num.lt b a = false.
Proof.
  destruct a as [| | |x], b as [| | |y]; simpl; try congruence.
  rewrite Qltb_lt, Qltb_ge. apply Qlt_le_weak.
Qed.

Lemma lt_le (a b : number) : Num.lt a b = true -> Num.le a b = true.
Proof.
  destruct a as [| | |x], b as [| | |y]; simpl; try congruence.
  rewrite Qltb_lt, Qleb_le. apply Qlt_le_weak.
Qed.

Lemma le_lt_trans (a b c : number) :
  Num.le a b = true -> Num.lt b c = true -> Num.lt a c = true.
Proof.
  destruct a as [| | |x], b as [| | |y], c as [| | |z]; simpl; try congruence.
  rewrite Qleb_le, !Qltb_lt. apply Qle_lt_trans.
Qed.

Lemma le_refl_finite (x : Q) : Num.le (Fin x) (Fin x) = true.
Proof. simpl. apply Qleb_le, Qle_refl. Qed.

End Comparisons.

(** ** The shape of one rescaling *)

Section Rescaling.

Variable env : Browser.

(** [resampleImage] either fails to load the file, or loads it, draws it and
    serialises the canvas once, with the defaults filled in. *)
Lemma resampleImage_run (file : File) (options : FileHelper.ResampleOptions) :
  FileHelper.resampleImage env file options =
  match decode env file with
  | None => ([LoadImage file], Rejected (mkError "blobToImage(): blob is illegal" None))
  | Some (w, h) =>
      let (cw, ch) := canvasOf w h (FileHelper.scale options) in
      let quality :=
        match FileHelper.quality options with Some q => q | None => Fin 1 end in
      let type :=
        match FileHelper.targetType options with Some t => t | None => "image/jpeg" end in
      ([LoadImage file; DrawImage (mkImage file w h) cw ch; ToBlob cw ch type quality],
       Resolved (newFile (serialize env (mkImage file w h) cw ch type quality)
                   (name file) (lastModified file)))
  end.
Proof.
  unfold FileHelper.resampleImage, blobToImage, canvasOf.
  destruct (decode env file) as [[w h]|]; reflexivity.
Qed.

Lemma newFile_name (blob : option Blob) (n : string) (m : Z) :
  name (newFile blob n m) = n /\ lastModified (newFile blob n m) = m.
Proof. destruct blob; split; reflexivity. Qed.

Lemma resampleImage_keeps (file : File) (options : FileHelper.ResampleOptions) (r : File) :
  snd (FileHelper.resampleImage env file options) = Resolved r ->
  name r = name file /\ lastModified r = lastModified file.
Proof.
  rewrite resampleImage_run.
  destruct (decode env file) as [[w h]|]; simpl; [|discriminate].
  intros H. injection H as <-. apply newFile_name.
Qed.

End Rescaling.

(** ** The quality search, one call at a time *)

Section Search.

Variable env : Browser.

Import FileHelper.

(** One call of [compressImage], with the rescaling it awaits spelled out. *)
Lemma compressImage_call (fuel : nat) (file : File) (options : CompressOptions) :
  compressImage env (S fuel) file options =
  if exhausted options then ([], Rejected (mkError "Unable to compress" None))
  else
    match decode env file with
    | None => ([LoadImage file], Rejected (mkError "blobToImage(): blob is illegal" None))
    | Some (w, h) =>
        let (cw, ch) := canvasOf w h (Fin 1) in
        let quality := qualityOf options in
        let t := [LoadImage file; DrawImage (mkImage file w h) cw ch;
                  ToBlob cw ch "image/jpeg" quality] in
        let compressed :=
          newFile (serialize env (mkImage file w h) cw ch "image/jpeg" quality)
            (name file) (lastModified file) in
        if isValidSize compressed (maxSize options) then (t, Resolved compressed)
        else
          let (t', r) :=
            compressImage env fuel file
              (withQuality options
                 (Num.sub quality (qualityStep (maxSize options) (size compressed)))) in
          ((t ++ t')%list, r)
    end.
Proof.
  cbn [compressImage]. fold (exhausted options).
  destruct (exhausted options); [reflexivity|].
  rewrite resampleImage_run.
  destruct (decode env file) as [[w h]|]; [|reflexivity].
  unfold canvasOf. cbn [scale quality targetType await].
  match goal with |- context [isValidSize ?c ?m] => destruct (isValidSize c m) end;
    reflexivity.
Qed.

(** A candidate that does not fit a positive budget is at least as large as
    the budget, which is then a finite number. *)
Lemma over_budget (file : File) (budget : number) :
  Num.lt (Fin 0) budget = true ->
  isValidSize file budget = false ->
  exists m : Q, budget = Fin m /\ 0 < m /\ m <= inject_Z (Z.of_N (size file)).
Proof.
  unfold isValidSize, Num.ofN.
  destruct budget as [| | |m]; simpl; try discriminate.
  rewrite Qltb_lt, Qltb_ge. intros Hpos Hle. now exists m.
Qed.

(** Over a positive budget the decrement lies between 0.025 and 0.1. *)
Lemma qualityStep_bounds (m : Q) (candidateSize : N) :
  0 < m -> m <= inject_Z (Z.of_N candidateSize) ->
  exists d : Q,
    qualityStep (Fin m) candidateSize = Fin d /\ 0.025 <= d /\ d <= 0.1.
Proof.
  intros Hm Hs. unfold qualityStep, Num.ofN.
  set (s := inject_Z (Z.of_N candidateSize)) in *.
  assert (Hspos : 0 < s) by (eapply Qlt_le_trans; eassumption).
  assert (Hratio : 0 < m / s) by (apply Qlt_shift_div_l; [exact Hspos | lra]).
  assert (Hone : m / s <= 1) by (apply Qle_shift_div_r; [exact Hspos | lra]).
  cbn [Num.div]. rewrite (sign_Gt s Hspos). cbn [Num.div].
  rewrite (sign_Gt (m / s) Hratio). cbn [Num.min Num.lt].
  assert (Hlow : 0.025 <= 0.025 / (m / s)).
  { apply Qle_shift_div_l; [exact Hratio|].
    setoid_replace 0.025 with (0.025 * 1) at 2 by ring.
    apply Qmult_le_l; [reflexivity | exact Hone]. }
  destruct (Num.Qltb 0.1 (0.025 / (m / s))) eqn:E.
  - exists 0.1. repeat split; [discriminate | apply Qle_refl].
  - exists (0.025 / (m / s)). apply Qltb_ge in E. repeat split; assumption.
Qed.

End Search.

Section SearchRuns.

Variable env : Browser.

Import FileHelper.

Lemma toBlobCalls_app (t t' : list request) :
  toBlobCalls (t ++ t') = (toBlobCalls t ++ toBlobCalls t')%list.
Proof. unfold toBlobCalls. apply flat_map_app. Qed.

Lemma encodeQualities_app (t t' : list request) :
  encodeQualities (t ++ t') = (encodeQualities t ++ encodeQualities t')%list.
Proof. unfold encodeQualities. rewrite toBlobCalls_app. apply map_app. Qed.

(** A call that goes past the test at the top has a positive finite quality,
    provided the quality is below [Infinity]. *)
Lemma searching_quality (options : CompressOptions) :
  Num.lt (qualityOf options) PosInf = true ->
  exhausted options = false ->
  exists x : Q, qualityOf options = Fin x /\ 0 < x.
Proof.
  unfold exhausted. intros Hfin Hgo. apply orb_false_elim in Hgo as [_ Hgo].
  destruct (qualityOf options) as [| | |x]; try discriminate.
  exists x. split; [reflexivity|]. now apply Qleb_gt.
Qed.

(** The quality of the recursive call, over a positive budget. *)
Lemma next_quality (options : CompressOptions) (x : Q) (candidate : File) :
  Num.lt (Fin 0) (maxSize options) = true ->
  qualityOf options = Fin x ->
  isValidSize candidate (maxSize options) = false ->
  exists d : Q,
    Num.sub (qualityOf options) (qualityStep (maxSize options) (size candidate))
    = Fin (x - d) /\ 0.025 <= d /\ d <= 0.1.
Proof.
  intros Hpos Hq Hbig.
  destruct (over_budget candidate _ Hpos Hbig) as (m & Hm & Hm0 & Hms).
  destruct (qualityStep_bounds m (size candidate) Hm0 Hms) as (d & Hd & Hlo & Hhi).
  exists d. rewrite Hm, Hd, Hq. repeat split; assumption.
Qed.

Lemma Qceiling_pred (y : Q) : (Qceiling (y - 1) <= Qceiling y - 1)%Z.
Proof.
  assert (H : inject_Z (Qceiling (y - 1)) < inject_Z (Qceiling y)).
  { pose proof (Qceiling_lt (y - 1)) as H1.
    pose proof (Qle_ceiling y) as H2.
    unfold Z.sub in H1. rewrite inject_Z_plus in H1.
    change (inject_Z (Z.opp 1)) with (-1 # 1) in H1.
    lra. }
  rewrite <- Zlt_Qlt in H. lia.
Qed.

Lemma Qceiling_pos (y : Q) : 0 < y -> (0 < Qceiling y)%Z.
Proof.
  intros Hy. rewrite Zlt_Qlt. pose proof (Qle_ceiling y).
  change (inject_Z 0) with 0. lra.
Qed.

(** The bound drops by one with every call that recurses. *)
Lemma searchBound_step (x d : Q) :
  0 < x -> 0.025 <= d -> (S (searchBound (Fin (x - d))) <= searchBound (Fin x))%nat.
Proof.
  intros Hx Hd. unfold searchBound.
  assert (H1 : (Qceiling ((x - d) * 40) <= Qceiling (x * 40 - 1))%Z)
    by (apply Qceiling_resp_le; lra).
  pose proof (Qceiling_pred (x * 40)) as H2.
  assert (H3 : (0 < Qceiling (x * 40))%Z) by (apply Qceiling_pos; lra).
  lia.
Qed.


(** The qualities at which a search over a positive budget encodes are
    strictly decreasing, and none exceeds the starting quality. *)
Lemma search_qualities (fuel : nat) :
  forall (file : File) (options : CompressOptions),
    Num.lt (Fin 0) (maxSize options) = true ->
    Num.lt (qualityOf options) PosInf = true ->
    let qs := encodeQualities (fst (compressImage env fuel file options)) in
    Forall (fun q => Num.le q (qualityOf options) = true) qs /\
    StronglySorted (fun earlier later => Num.lt later earlier = true) qs.
Proof.
  induction fuel as [|fuel IH]; intros file options Hpos Hfin; cbv zeta.
  - split; constructor.
  - rewrite compressImage_call.
    destruct (exhausted options) eqn:Hgo; [split; constructor|].
    destruct (searching_quality options Hfin Hgo) as (x & Hq & Hx).
    destruct (decode env file) as [[w h]|]; [|split; constructor].
    destruct (canvasOf w h (Fin 1)) as [cw ch]. cbv zeta.
    match goal with |- context [isValidSize ?c ?m] =>
      set (candidate := c); destruct (isValidSize candidate m) eqn:Hfit end.
    { rewrite Hq. cbn. split; repeat constructor. apply Qleb_le, Qle_refl. }
    destruct (next_quality options x candidate Hpos Hq Hfit) as (d & Hnext & Hlo & _).
    rewrite Hnext.
    destruct (IH file (withQuality options (Fin (x - d))) Hpos eq_refl) as [Hall Hsorted].
    cbn [withQuality qualityOf c_quality] in Hall.
    destruct (compressImage env fuel file (withQuality options (Fin (x - d)))) as [t' r].
    cbn [fst] in *. rewrite encodeQualities_app, Hq. cbn [encodeQualities toBlobCalls flat_map map app snd].
    fold (toBlobCalls t'). fold (encodeQualities t').
    assert (Hdrop : Num.lt (Fin (x - d)) (Fin x) = true) by (apply Qltb_lt; lra).
    split.
    + constructor; [apply le_refl_finite|].
      eapply Forall_impl; [|exact Hall]. cbv beta. intros q Hle.
      apply lt_le. eapply le_lt_trans; eassumption.
    + constructor; [exact Hsorted|].
      eapply Forall_impl; [|exact Hall]. cbv beta. intros q Hle.
      eapply le_lt_trans; eassumption.
Qed.

End SearchRuns.

(** ** What a settled search returns *)

Section SearchResults.

Variable env : Browser.

Import FileHelper.

(** A file returned by the search passed the size check. *)
Lemma compressImage_fits (fuel : nat) :
  forall (file : File) (options : CompressOptions) (r : File),
    snd (compressImage env fuel file options) = Resolved r ->
    isValidSize r (maxSize options) = true.
Proof.
  induction fuel as [|fuel IH]; intros file options r; [discriminate|].
  rewrite compressImage_call.
  destruct (exhausted options); [discriminate|].
  destruct (decode env file) as [[w h]|]; [|discriminate].
  destruct (canvasOf w h (Fin 1)) as [cw ch]. cbv zeta.
  match goal with |- context [isValidSize ?c ?m] =>
    set (candidate := c); destruct (isValidSize candidate m) eqn:Hfit end.
  - intros H. injection H as <-. exact Hfit.
  - match goal with |- context [compressImage env fuel file ?o] =>
      specialize (IH file o r); destruct (compressImage env fuel file o) as [t' r'] end.
    exact IH.
Qed.

(** A file returned by the search has the name and the timestamp of the
    file searched. *)
Lemma compressImage_keeps (fuel : nat) :
  forall (file : File) (options : CompressOptions) (r : File),
    snd (compressImage env fuel file options) = Resolved r ->
    name r = name file /\ lastModified r = lastModified file.
Proof.
  induction fuel as [|fuel IH]; intros file options r; [discriminate|].
  rewrite compressImage_call.
  destruct (exhausted options); [discriminate|].
  destruct (decode env file) as [[w h]|]; [|discriminate].
  destruct (canvasOf w h (Fin 1)) as [cw ch]. cbv zeta.
  match goal with |- context [isValidSize ?c ?m] => destruct (isValidSize c m) end.
  - intros H. injection H as <-. apply newFile_name.
  - match goal with |- context [compressImage env fuel file ?o] =>
      specialize (IH file o r); destruct (compressImage env fuel file o) as [t' r'] end.
    exact IH.
Qed.

(** [compress], with its [try] block run. *)
Lemma compress_run (fuel : nat) (file : File) (budget : number) :
  compress env fuel file budget =
  if refused file budget then ([], Rejected umbrella)
  else
    match resampleImage env file prepassOptions with
    | (t, Resolved c) =>
        if isValidSize c budget then (t, Resolved c)
        else
          match compressImage env fuel c (searchOptions budget) with
          | (t', Resolved r) => ((t ++ t')%list, Resolved r)
          | (t', Rejected e) => ((t ++ t')%list, Rejected (newError (message umbrella) (Some e)))
          | (t', Pending) => ((t ++ t')%list, Pending)
          end
    | (t, Rejected e) => (t, Rejected (newError (message umbrella) (Some e)))
    | (t, Pending) => (t, Pending)
    end.
Proof.
  unfold compress. fold (refused file budget). fold prepassOptions. fold (searchOptions budget).
  destruct (refused file budget); [reflexivity|].
  destruct (resampleImage env file prepassOptions) as [t [c|e|]]; cbn [await tryCatch].
  - destruct (isValidSize c budget); cbn [negb].
    + cbn. now rewrite app_nil_r.
    + destruct (compressImage env fuel c (searchOptions budget)) as [t' [r|e|]];
        cbn; rewrite ?app_nil_r; reflexivity.
  - cbn. now rewrite app_nil_r.
  - reflexivity.
Qed.

End SearchResults.

(** ** The entry point *)

Section Compress.

Variable env : Browser.

Import FileHelper.

Lemma resampleImage_error (file : File) (options : ResampleOptions) (e : Error) :
  snd (resampleImage env file options) = Rejected e -> cause e = None.
Proof.
  rewrite resampleImage_run. destruct (decode env file) as [[w h]|]; [discriminate|].
  intros H. injection H as <-. reflexivity.
Qed.

Lemma compressImage_error (fuel : nat) :
  forall (file : File) (options : CompressOptions) (e : Error),
    snd (compressImage env fuel file options) = Rejected e -> cause e = None.
Proof.
  induction fuel as [|fuel IH]; intros file options e; [discriminate|].
  rewrite compressImage_call.
  destruct (exhausted options); [intros H; injection H as <-; reflexivity|].
  destruct (decode env file) as [[w h]|]; [|intros H; injection H as <-; reflexivity].
  destruct (canvasOf w h (Fin 1)) as [cw ch]. cbv zeta.
  match goal with |- context [isValidSize ?c ?m] => destruct (isValidSize c m) end;
    [discriminate|].
  match goal with |- context [compressImage env fuel file ?o] =>
    specialize (IH file o e); destruct (compressImage env fuel file o) as [t' r'] end.
  exact IH.
Qed.

(** Whatever step fails, [compress] throws the same error, and that error
    has no [cause]: the caught error is passed where the constructor expects
    an options object. *)
Lemma compress_error_shape (fuel : nat) (file : File) (budget : number) (e : Error) :
  snd (compress env fuel file budget) = Rejected e -> e = umbrella.
Proof.
  rewrite compress_run. destruct (refused file budget); [now intros [= <-]|].
  destruct (resampleImage env file prepassOptions) as [t [c|e1|]] eqn:Hpre.
  - destruct (isValidSize c budget); [discriminate|].
    destruct (compressImage env fuel c (searchOptions budget)) as [t' [r|e2|]] eqn:Hs;
      try discriminate.
    intros [= <-]. unfold newError.
    now rewrite (compressImage_error fuel c (searchOptions budget) e2) by (now rewrite Hs).
  - intros [= <-]. unfold newError.
    now rewrite (resampleImage_error file prepassOptions e1) by (now rewrite Hpre).
  - discriminate.
Qed.

(** A file [compress] returns is the pre-pass result or what the search
    returned for it; either way it passed the size check. *)
Lemma compress_resolved (fuel : nat) (file : File) (budget : number) (r : File) :
  snd (compress env fuel file budget) = Resolved r ->
  isValidSize r budget = true /\
  name r = name file /\ lastModified r = lastModified file.
Proof.
  rewrite compress_run. destruct (refused file budget); [discriminate|].
  destruct (resampleImage env file prepassOptions) as [t [c|e1|]] eqn:Hpre;
    try discriminate.
  assert (Hc : name c = name file /\ lastModified c = lastModified file)
    by (apply (resampleImage_keeps env file prepassOptions); now rewrite Hpre).
  destruct (isValidSize c budget) eqn:Hfit.
  - intros [= <-]. now split.
  - destruct (compressImage env fuel c (searchOptions budget)) as [t' [r'|e2|]] eqn:Hs;
      try discriminate.
    intros [= <-]. split.
    + apply (compressImage_fits env fuel c (searchOptions budget)). now rewrite Hs.
    + destruct (compressImage_keeps env fuel c (searchOptions budget) r') as [Hn Hm];
        [now rewrite Hs|].
      destruct Hc as [Hn' Hm']. split; congruence.
Qed.

End Compress.

(** ** The canvas of a rescaling *)

Section Canvas.

Lemma Qnum_nonneg (x : Q) : 0 <= x -> (0 <= Qnum x)%Z.
Proof. unfold Qle. simpl. lia. Qed.

(** On a non-negative value below 2^31 the assignment to a canvas dimension
    keeps the integer part. *)
Lemma setCanvasDimension_floor (default : Z) (x : Q) :
  0 <= x -> x <= inject_Z 2147483647 ->
  setCanvasDimension default (Fin x) = Qfloor x.
Proof.
  intros H0 Hmax. unfold setCanvasDimension, Num.toUnsignedLong.
  rewrite Z.quot_div_nonneg by (auto using Qnum_nonneg; lia).
  replace (Qnum x / Z.pos (Qden x))%Z with (Qfloor x) by (now destruct x).
  assert (Hlo : (0 <= Qfloor x)%Z) by (apply (Qfloor_resp_le 0 x H0)).
  assert (Hhi : (Qfloor x <= 2147483647)%Z).
  { rewrite <- (Qfloor_Z 2147483647). now apply Qfloor_resp_le. }
  rewrite Z.mod_small by lia.
  destruct (Z.leb_spec (Qfloor x) 2147483647); [reflexivity | lia].
Qed.

Lemma scaled_dimension (default : Z) (n : N) (s : Q) :
  0 < s -> s <= 1 -> (Z.of_N n <= 2147483647)%Z ->
  setCanvasDimension default (Num.mul (Num.ofN n) (Fin s))
  = Qfloor (inject_Z (Z.of_N n) * s).
Proof.
  intros Hs H1 Hn. unfold Num.ofN. cbn [Num.mul].
  assert (H0 : 0 <= inject_Z (Z.of_N n)).
  { change 0 with (inject_Z 0). rewrite <- Zle_Qle. lia. }
  assert (Hm : inject_Z (Z.of_N n) <= inject_Z 2147483647) by (now rewrite <- Zle_Qle).
  apply setCanvasDimension_floor; nra.
Qed.

End Canvas.

(** ** Steps of the search, for the claims below *)

Section SearchSteps.

Variable env : Browser.

Import FileHelper.

(** A search over a positive budget settles within its bound. *)
Lemma search_within_bound (fuel : nat) :
  forall (file : File) (options : CompressOptions),
    Num.lt (Fin 0) (maxSize options) = true ->
    Num.lt (qualityOf options) PosInf = true ->
    (searchBound (qualityOf options) <= fuel)%nat ->
    settled (snd (compressImage env fuel file options)) = true /\
    (List.length (toBlobCalls (fst (compressImage env fuel file options)))
     < searchBound (qualityOf options))%nat.
Proof.
  induction fuel as [|fuel IH]; intros file options Hpos Hfin Hfuel.
  - destruct (qualityOf options); simpl in Hfuel; lia.
  - rewrite compressImage_call.
    destruct (exhausted options) eqn:Hgo.
    { split; [reflexivity|]. destruct (qualityOf options); simpl; lia. }
    destruct (searching_quality options Hfin Hgo) as (x & Hq & Hx).
    assert (Hbound : (2 <= searchBound (Fin x))%nat).
    { unfold searchBound. assert (0 < Qceiling (x * 40))%Z by (apply Qceiling_pos; lra).
      lia. }
    destruct (decode env file) as [[w h]|];
      [|rewrite Hq; split; [reflexivity|cbn [fst toBlobCalls flat_map app List.length]; lia]].
    destruct (canvasOf w h (Fin 1)) as [cw ch]. cbv zeta.
    match goal with |- context [isValidSize ?c ?m] =>
      set (candidate := c); destruct (isValidSize candidate m) eqn:Hfit end.
    { rewrite Hq. split; [reflexivity|cbn [fst toBlobCalls flat_map app List.length]; lia]. }
    destruct (next_quality options x candidate Hpos Hq Hfit) as (d & Hnext & Hlo & _).
    rewrite Hnext.
    pose proof (searchBound_step x d Hx Hlo) as Hstep.
    set (next := withQuality options (Fin (x - d))).
    assert (Hnextq : qualityOf next = Fin (x - d)) by reflexivity.
    destruct (IH file next) as [Hs Hn];
      [exact Hpos | reflexivity | rewrite Hnextq; rewrite Hq in Hfuel; lia |].
    rewrite Hnextq in Hn.
    destruct (compressImage env fuel file next) as [t' r].
    rewrite Hq. split; [exact Hs|].
    cbn [fst snd] in *. rewrite toBlobCalls_app, length_app.
    cbn [toBlobCalls flat_map app List.length]. lia.
Qed.

(** A quality of at most 1 is below [Infinity], and its search needs at most
    41 calls. *)
Lemma le_one_below_inf (q : number) :
  Num.le q (Fin 1) = true -> Num.lt q PosInf = true.
Proof. destruct q; cbn; congruence. Qed.

Lemma searchBound_range (q : number) :
  Num.le q (Fin 1) = true -> (searchBound q <= 41)%nat.
Proof.
  destruct q as [| | |x]; cbn [Num.le searchBound]; try discriminate; try lia.
  intros H. apply Qleb_le in H.
  assert (Hc : (Qceiling (x * 40) <= 40)%Z).
  { apply (Z.le_trans _ (Qceiling (inject_Z 40))); [|now rewrite Qceiling_Z].
    apply Qceiling_resp_le. change (inject_Z 40) with 40. lra. }
  lia.
Qed.



End SearchSteps.

(** * The claims *)

(** ** C1: the pre-pass request *)

(** C1, as amended.  When [compress] does not refuse the file at its guard and
    the file decodes, the run starts with the pre-pass: the image is drawn on
    a canvas scaled by 0.9 and serialised with quality 1 and type
    ["image/jpeg"], the defaults of [resampleImage], whatever the type of the
    source.  The pre-pass file has the type of the blob the browser returned
    (none for the [null] blob), and it is the result of [compress] when it
    fits the budget. *)
Theorem compress_prepass_request (env : Browser) (fuel : nat) (file : File)
  (budget : number) (w h : N) :
  refused file budget = false ->
  decode env file = Some (w, h) ->
  let cw := fst (canvasOf w h (Fin 0.9)) in
  let ch := snd (canvasOf w h (Fin 0.9)) in
  let blob := serialize env (mkImage file w h) cw ch "image/jpeg" (Fin 1) in
  let prepass := newFile blob (name file) (lastModified file) in
  (exists rest : list request,
      fst (compress env fuel file budget) =
      ([LoadImage file; DrawImage (mkImage file w h) cw ch;
        ToBlob cw ch "image/jpeg" (Fin 1)] ++ rest)%list) /\
  type prepass = match blob with Some b => blob_type b | None => "" end /\
  (FileHelper.isValidSize prepass budget = true ->
   snd (compress env fuel file budget) = Resolved prepass).
Proof.
  intros Hguard Hdecode. cbv zeta.
  rewrite compress_run, Hguard, resampleImage_run, Hdecode.
  unfold prepassOptions. cbn [FileHelper.scale FileHelper.quality FileHelper.targetType].
  destruct (canvasOf w h (Fin 0.9)) as [cw ch]. cbn [fst snd].
  set (blob := serialize env (mkImage file w h) cw ch "image/jpeg" (Fin 1)).
  set (prepass := newFile blob (name file) (lastModified file)).
  repeat split.
  - destruct (FileHelper.isValidSize prepass budget); [exists []; now rewrite app_nil_r|].
    destruct (FileHelper.compressImage env fuel prepass (searchOptions budget))
      as [t' [r|e|]]; exists t'; reflexivity.
  - unfold prepass. now destruct blob.
  - intros ->. reflexivity.
Qed.

Lemma compress_prepass_request_witness :
  (exists rest : list request,
      fst (compress Sample.browser 1 Sample.png (Fin 1000)) =
      ([LoadImage Sample.png; DrawImage (mkImage Sample.png 10 10) 9 9;
        ToBlob 9 9 "image/jpeg" (Fin 1)] ++ rest)%list) /\
  type (newFile (Sample.serialize (mkImage Sample.png 10 10) 9 9 "image/jpeg" (Fin 1))
          "photo.png" 1700000000000) = "image/jpeg" /\
  (FileHelper.isValidSize
     (newFile (Sample.serialize (mkImage Sample.png 10 10) 9 9 "image/jpeg" (Fin 1))
        "photo.png" 1700000000000) (Fin 1000) = true ->
   snd (compress Sample.browser 1 Sample.png (Fin 1000)) =
   Resolved (newFile (Sample.serialize (mkImage Sample.png 10 10) 9 9 "image/jpeg" (Fin 1))
               "photo.png" 1700000000000)).
Proof.
  apply (compress_prepass_request Sample.browser 1 Sample.png (Fin 1000) 10 10);
    reflexivity.
Defined.

(** C1 as stated fails: for a PNG source the pre-pass asks for ["image/jpeg"],
    not for the type of the source, and the file returned directly from the
    pre-pass is a JPEG. *)
Lemma compress_prepass_changes_type :
  type Sample.png = "image/png" /\
  toBlobCalls (fst (compress Sample.browser 1 Sample.png (Fin 1000)))
  = [(9%Z, 9%Z, "image/jpeg", Fin 1)] /\
  exists r : File,
    snd (compress Sample.browser 1 Sample.png (Fin 1000)) = Resolved r /\
    type r = "image/jpeg" /\ type r <> type Sample.png.
Proof.
  split; [reflexivity|]. split; [reflexivity|].
  eexists. split; [reflexivity|]. split; [reflexivity|]. discriminate.
Qed.

(** ** C2: the size of the result *)

(** C2, as amended.  A file [compress] returns is strictly smaller than the
    budget, hence within it.  Nothing relates it to the size of the source. *)
Theorem compress_result_fits (env : Browser) (fuel : nat) (file : File)
  (budget : number) (r : File) :
  snd (compress env fuel file budget) = Resolved r ->
  Num.lt (Num.ofN (size r)) budget = true /\ Num.le (Num.ofN (size r)) budget = true.
Proof.
  intros H. destruct (compress_resolved env fuel file budget r H) as [Hfit _].
  split; [exact Hfit | apply lt_le; exact Hfit].
Qed.

Lemma compress_result_fits_witness :
  snd (compress Sample.browser 100 Sample.png (Fin 60)) = Resolved Sample.compressed60 /\
  size Sample.compressed60 = 58%N /\
  Num.lt (Num.ofN (size Sample.compressed60)) (Fin 60) = true /\
  Num.le (Num.ofN (size Sample.compressed60)) (Fin 60) = true.
Proof.
  assert (H : snd (compress Sample.browser 100 Sample.png (Fin 60))
              = Resolved Sample.compressed60) by (vm_compute; reflexivity).
  split; [exact H|]. split; [reflexivity|].
  exact (compress_result_fits Sample.browser 100 Sample.png (Fin 60) _ H).
Defined.

(** C2 as stated fails.  The five-byte source is under both budgets; with a
    budget of 8 bytes [compress] fails, because the pre-pass re-encodes the
    file to 102 bytes and no quality brings it under 8; with a budget of 60
    bytes [compress] returns 58 bytes, more than the source. *)
Lemma compress_under_budget_fails_or_grows :
  FileHelper.isValidSize Sample.png (Fin 8) = true /\
  snd (compress Sample.browser 100 Sample.png (Fin 8)) = Rejected umbrella /\
  FileHelper.isValidSize Sample.png (Fin 60) = true /\
  exists r : File,
    snd (compress Sample.browser 100 Sample.png (Fin 60)) = Resolved r /\
    size Sample.png = 5%N /\ size r = 58%N.
Proof.
  split; [reflexivity|]. split; [vm_compute; reflexivity|]. split; [reflexivity|].
  eexists. split; [vm_compute; reflexivity|]. split; reflexivity.
Qed.

(** ** C3: the error [compress] throws *)

(** C3 at two failing inputs.  A PDF over the budget is refused at the guard,
    a PDF under the budget fails to load in the pre-pass.  Both times
    [compress] throws an error with the umbrella message and no cause: the
    error that was caught is not attached to it. *)
Theorem compress_error_loses_cause :
  compress Sample.browser 10 Sample.pdf (Fin 2)
  = ([], Rejected (mkError "Unable to compress file due to error:" None)) /\
  snd (FileHelper.resampleImage Sample.browser Sample.pdf prepassOptions)
  = Rejected (mkError "blobToImage(): blob is illegal" None) /\
  compress Sample.browser 10 Sample.pdf (Fin 1000)
  = ([LoadImage Sample.pdf],
     Rejected (mkError "Unable to compress file due to error:" None)).
Proof. repeat split. Qed.

(** ** C4: the canvas of a rescaling *)




(** ** C5: the search settles *)

(** C5.  Over a positive budget, and whatever the minimum quality, a search
    started at a quality of at most 1 (the qualities are the fractions in
    (0, 1]) settles within 42 calls: it returns a file or throws after at most
    41 encodings.  The bound leaves room for the one more encoding that the
    rounding of the subtractions can cost over the 40 of exact arithmetic. *)
Theorem compressImage_settles (env : Browser) (fuel : nat) (file : File)
  (options : FileHelper.CompressOptions) :
  Num.lt (Fin 0) (FileHelper.maxSize options) = true ->
  Num.le (FileHelper.qualityOf options) (Fin 1) = true ->
  (42 <= fuel)%nat ->
  settled (snd (FileHelper.compressImage env fuel file options)) = true /\
  (List.length (toBlobCalls (fst (FileHelper.compressImage env fuel file options)))
   <= 41)%nat.
Proof.
  intros Hpos Hrange Hfuel.
  pose proof (searchBound_range _ Hrange) as Hbound.
  destruct (search_within_bound env fuel file options Hpos (le_one_below_inf _ Hrange))
    as [Hs Hn]; [lia|].
  split; [exact Hs | lia].
Qed.

Lemma compressImage_settles_witness :
  settled (snd (FileHelper.compressImage Sample.browser 42 Sample.png (searchOptions (Fin 8))))
  = true /\
  (List.length
     (toBlobCalls
        (fst (FileHelper.compressImage Sample.browser 42 Sample.png (searchOptions (Fin 8)))))
   <= 41)%nat.
Proof.
  apply (compressImage_settles Sample.browser 42 Sample.png (searchOptions (Fin 8)));
    [reflexivity | reflexivity | lia].
Defined.

(** The search started at [NaN] or at [Infinity], over a budget no encoding
    fits: each call encodes and recurses on the same quality. *)
Lemma stuck_search (q : number) (fuel : nat) :
  q = NaN \/ q = PosInf ->
  FileHelper.compressImage Sample.browser fuel Sample.png
    (FileHelper.mkCompressOptions (Some q) (Fin 8) None)
  = (concat (repeat [LoadImage Sample.png; DrawImage (mkImage Sample.png 10 10) 10 10;
                     ToBlob 10 10 "image/jpeg" q] fuel),
     Pending).
Proof.
  intros Hq. induction fuel as [|fuel IH]; [reflexivity|].
  transitivity
    (let (t', r) :=
       FileHelper.compressImage Sample.browser fuel Sample.png
         (FileHelper.mkCompressOptions (Some q) (Fin 8) None) in
     (([LoadImage Sample.png; DrawImage (mkImage Sample.png 10 10) 10 10;
        ToBlob 10 10 "image/jpeg" q] ++ t')%list, r)).
  - destruct Hq as [-> | ->]; reflexivity.
  - rewrite IH. reflexivity.
Qed.

Lemma stuck_search_encodes (q : number) (fuel : nat) :
  q = NaN \/ q = PosInf ->
  snd (FileHelper.compressImage Sample.browser fuel Sample.png
         (FileHelper.mkCompressOptions (Some q) (Fin 8) None)) = Pending /\
  encodeQualities
    (fst (FileHelper.compressImage Sample.browser fuel Sample.png
            (FileHelper.mkCompressOptions (Some q) (Fin 8) None))) = repeat q fuel.
Proof.
  intros Hq. rewrite (stuck_search q fuel Hq). split; [reflexivity|].
  cbn [fst]. induction fuel as [|fuel IH]; [reflexivity|].
  cbn [repeat concat]. rewrite encodeQualities_app, IH. reflexivity.
Qed.

(** Outside the range of qualities: the budget and the (default) minimum
    quality are positive, yet the search started at [NaN] never settles, and
    neither does the one started at [Infinity]; whatever the fuel, the run is
    still pending after as many encodings as it had fuel. *)
Lemma compressImage_stuck_at_NaN :
  Num.lt (Fin 0) (Fin 8) = true /\
  Num.lt (Fin 0)
    (FileHelper.minQualityOf (FileHelper.mkCompressOptions (Some NaN) (Fin 8) None)) = true /\
  (forall fuel : nat,
      snd (FileHelper.compressImage Sample.browser fuel Sample.png
             (FileHelper.mkCompressOptions (Some NaN) (Fin 8) None)) = Pending /\
      encodeQualities
        (fst (FileHelper.compressImage Sample.browser fuel Sample.png
                (FileHelper.mkCompressOptions (Some NaN) (Fin 8) None)))
      = repeat NaN fuel) /\
  (forall fuel : nat,
      snd (FileHelper.compressImage Sample.browser fuel Sample.png
             (FileHelper.mkCompressOptions (Some PosInf) (Fin 8) None)) = Pending /\
      encodeQualities
        (fst (FileHelper.compressImage Sample.browser fuel Sample.png
                (FileHelper.mkCompressOptions (Some PosInf) (Fin 8) None)))
      = repeat PosInf fuel).
Proof.
  split; [reflexivity|]. split; [reflexivity|].
  split; intros fuel; apply stuck_search_encodes; auto.
Qed.


(** ** C6: the next quality *)



(** ** C7: the test at the top of the search *)

(** C7.  A call of the search whose quality is below the minimum quality, or
    is zero or less, throws at once: it asks nothing of the browser, so it
    encodes nothing, whether or not the file fits the budget. *)
Theorem compressImage_exhausted (env : Browser) (fuel : nat) (file : File)
  (options : FileHelper.CompressOptions) :
  Num.lt (FileHelper.qualityOf options) (FileHelper.minQualityOf options) = true \/
  Num.le (FileHelper.qualityOf options) (Fin 0) = true ->
  FileHelper.compressImage env (S fuel) file options
  = ([], Rejected (mkError "Unable to compress" None)).
Proof.
  intros H. cbn [FileHelper.compressImage].
  destruct H as [-> | ->]; [reflexivity | now rewrite orb_true_r].
Qed.

Lemma compressImage_exhausted_witness :
  FileHelper.isValidSize Sample.png (Fin 1000) = true /\
  FileHelper.compressImage Sample.browser 1 Sample.png
    (FileHelper.mkCompressOptions (Some (Fin 0.05)) (Fin 1000) None)
  = ([], Rejected (mkError "Unable to compress" None)).
Proof.
  split; [reflexivity|].
  apply (compressImage_exhausted Sample.browser 0 Sample.png
           (FileHelper.mkCompressOptions (Some (Fin 0.05)) (Fin 1000) None)).
  left. reflexivity.
Defined.

(** ** C8: documents over the budget *)

(** C8.  For a file whose type is in the non-compressible list
    (["application/pdf"]) and whose size exceeds the budget, [compress]
    throws without asking anything of the browser: nothing is decoded, drawn
    or encoded. *)
Theorem compress_refuses_large_document (env : Browser) (fuel : nat) (file : File)
  (budget : number) :
  includes nonCompressableFileTypes (type file) = true ->
  Num.lt budget (Num.ofN (size file)) = true ->
  compress env fuel file budget
  = ([], Rejected (mkError "Unable to compress file due to error:" None)).
Proof.
  intros Htype Hbig. rewrite compress_run. unfold refused, FileHelper.isValidSize.
  now rewrite (lt_asym _ _ Hbig), Htype.
Qed.

Lemma compress_refuses_large_document_witness :
  compress Sample.browser 10 Sample.pdf (Fin 2)
  = ([], Rejected (mkError "Unable to compress file due to error:" None)).
Proof.
  apply (compress_refuses_large_document Sample.browser 10 Sample.pdf (Fin 2));
    reflexivity.
Defined.

(** ** C9: the quality decreases *)

(** C9.  Over a positive budget and from a starting quality of at most 1 (the
    qualities are the fractions in (0, 1]), the qualities at which one run of
    the search encodes are strictly decreasing, each strictly below all the
    earlier ones, so none is used twice; and whenever a call recurses, the
    quality of the recursive call is strictly below its own, hence again at
    most 1. *)
Theorem compressImage_quality_decreases (env : Browser) (fuel : nat) (file : File)
  (options : FileHelper.CompressOptions) :
  Num.lt (Fin 0) (FileHelper.maxSize options) = true ->
  Num.le (FileHelper.qualityOf options) (Fin 1) = true ->
  StronglySorted (fun earlier later : number => Num.lt later earlier = true)
    (encodeQualities (fst (FileHelper.compressImage env fuel file options))) /\
  (forall (t : list request) (compressed : File),
      exhausted options = false ->
      FileHelper.resampleImage env file
        (FileHelper.mkResampleOptions (Fin 1) (Some (FileHelper.qualityOf options)) None)
      = (t, Resolved compressed) ->
      FileHelper.isValidSize compressed (FileHelper.maxSize options) = false ->
      exists targetQuality : number,
        Num.lt targetQuality (FileHelper.qualityOf options) = true /\
        Num.le targetQuality (Fin 1) = true /\
        FileHelper.compressImage env (S fuel) file options
        = let (t', r) :=
            FileHelper.compressImage env fuel file
              (FileHelper.mkCompressOptions (Some targetQuality)
                 (FileHelper.maxSize options) (FileHelper.minQuality options)) in
          ((t ++ t')%list, r)).
Proof.
  intros Hpos Hrange. pose proof (le_one_below_inf _ Hrange) as Hfin. split.
  - apply (search_qualities env fuel file options Hpos Hfin).
  - intros t compressed Hgo Hencode Hbig.
    destruct (searching_quality options Hfin Hgo) as (x & Hq & Hx).
    destruct (next_quality options x compressed Hpos Hq Hbig) as (d & Hnext & Hlo & _).
    rewrite Hq in Hrange. cbn in Hrange. apply Qleb_le in Hrange.
    exists (Fin (x - d)). split; [|split].
    + rewrite Hq. apply Qltb_lt. lra.
    + cbn. apply Qleb_le. lra.
    + rewrite <- Hnext. cbn [FileHelper.compressImage]. fold (exhausted options).
      rewrite Hgo, Hencode. cbn [await]. now rewrite Hbig.
Qed.

Lemma compressImage_quality_decreases_witness :
  StronglySorted (fun earlier later : number => Num.lt later earlier = true)
    (encodeQualities
       (fst (FileHelper.compressImage Sample.browser 41 Sample.png (searchOptions (Fin 60)))))
  /\
  (forall (t : list request) (compressed : File),
      exhausted (searchOptions (Fin 60)) = false ->
      FileHelper.resampleImage Sample.browser Sample.png
        (FileHelper.mkResampleOptions (Fin 1) (Some (Fin 1)) None)
      = (t, Resolved compressed) ->
      FileHelper.isValidSize compressed (Fin 60) = false ->
      exists targetQuality : number,
        Num.lt targetQuality (Fin 1) = true /\
        Num.le targetQuality (Fin 1) = true /\
        FileHelper.compressImage Sample.browser 42 Sample.png (searchOptions (Fin 60))
        = let (t', r) :=
            FileHelper.compressImage Sample.browser 41 Sample.png
              (FileHelper.mkCompressOptions (Some targetQuality) (Fin 60) None) in
          ((t ++ t')%list, r)).
Proof.
  apply (compressImage_quality_decreases Sample.browser 41 Sample.png
           (searchOptions (Fin 60))); reflexivity.
Defined.

(** Outside the ranges of budgets and qualities: under a budget of -1 byte
    the second encoding of a run uses a higher quality than the first, and
    from the starting quality [Infinity] every encoding of a run uses
    [Infinity] again. *)
Lemma compressImage_quality_rises_or_repeats :
  (exists q1 q2 : number,
      encodeQualities
        (fst (FileHelper.compressImage Sample.browser 2 Sample.png (searchOptions (Fin (-1)))))
      = [q1; q2] /\ Num.lt q1 q2 = true) /\
  encodeQualities
    (fst (FileHelper.compressImage Sample.browser 3 Sample.png
            (FileHelper.mkCompressOptions (Some PosInf) (Fin 8) None)))
  = [PosInf; PosInf; PosInf].
Proof.
  split; [|reflexivity].
  do 2 eexists. split; [vm_compute; reflexivity | reflexivity].
Qed.

(** ** C10: name and timestamp *)

(** C10.  A file returned by [resampleImage], by [compressImage] or by
    [compress] has the name and the [lastModified] timestamp of the file the
    function was given. *)
Theorem result_keeps_name_and_timestamp (env : Browser) (fuel : nat) (file : File)
  (resampleOptions : FileHelper.ResampleOptions)
  (compressOptions : FileHelper.CompressOptions) (budget : number) (r : File) :
  snd (FileHelper.resampleImage env file resampleOptions) = Resolved r \/
  snd (FileHelper.compressImage env fuel file compressOptions) = Resolved r \/
  snd (compress env fuel file budget) = Resolved r ->
  name r = name file /\ lastModified r = lastModified file.
Proof.
  intros [H | [H | H]].
  - exact (resampleImage_keeps env file resampleOptions r H).
  - exact (compressImage_keeps env fuel file compressOptions r H).
  - exact (proj2 (compress_resolved env fuel file budget r H)).
Qed.

Lemma result_keeps_name_and_timestamp_witness :
  snd (compress Sample.browser 100 Sample.png (Fin 60)) = Resolved Sample.compressed60 /\
  name Sample.compressed60 = "photo.png" /\
  lastModified Sample.compressed60 = 1700000000000%Z.
Proof.
  assert (H : snd (compress Sample.browser 100 Sample.png (Fin 60))
              = Resolved Sample.compressed60) by (vm_compute; reflexivity).
  split; [exact H|].
  apply (result_keeps_name_and_timestamp Sample.browser 100 Sample.png
           prepassOptions (searchOptions (Fin 60)) (Fin 60) Sample.compressed60).
  right. right. exact H.
Defined.


(** * Further properties of the code *)

(** ** Errors and refusals of [compress] *)

(** X1.  Whatever step fails, the error [compress] throws has the message
    ["Unable to compress file due to error:"] and no cause. *)
Theorem compress_throws_one_error (env : Browser) (fuel : nat) (file : File)
  (budget : number) (e : Error) :
  snd (compress env fuel file budget) = Rejected e ->
  message e = "Unable to compress file due to error:" /\ cause e = None.
Proof.
  intros H. rewrite (compress_error_shape env fuel file budget e H). now split.
Qed.

Lemma compress_throws_one_error_witness :
  message (mkError "Unable to compress file due to error:" None)
  = "Unable to compress file due to error:" /\
  cause (mkError "Unable to compress file due to error:" None) = None.
Proof.
  apply (compress_throws_one_error Sample.browser 10 Sample.pdf (Fin 1000)).
  reflexivity.
Defined.

Lemma size_nonneg (file : File) : Num.le (Fin 0) (Num.ofN (size file)) = true.
Proof.
  unfold Num.ofN. simpl. apply Qleb_le.
  change 0 with (inject_Z 0). rewrite <- Zle_Qle. lia.
Qed.

(** X2.  [compress] returns a file only under a positive budget: with a budget
    of zero, a negative budget or [NaN] it never resolves. *)
Theorem compress_needs_positive_budget (env : Browser) (fuel : nat) (file : File)
  (budget : number) (r : File) :
  snd (compress env fuel file budget) = Resolved r ->
  Num.lt (Fin 0) budget = true.
Proof.
  intros H. destruct (compress_resolved env fuel file budget r H) as [Hfit _].
  exact (le_lt_trans _ _ _ (size_nonneg r) Hfit).
Qed.

Lemma compress_needs_positive_budget_witness :
  snd (compress Sample.browser 100 Sample.png (Fin 60)) = Resolved Sample.compressed60 /\
  Num.lt (Fin 0) (Fin 60) = true.
Proof.
  assert (H : snd (compress Sample.browser 100 Sample.png (Fin 60))
              = Resolved Sample.compressed60) by (vm_compute; reflexivity).
  split; [exact H|].
  exact (compress_needs_positive_budget Sample.browser 100 Sample.png (Fin 60) _ H).
Defined.

Lemma resampleImage_first (env : Browser) (file : File)
  (options : FileHelper.ResampleOptions) :
  exists rest : list request,
    fst (FileHelper.resampleImage env file options) = LoadImage file :: rest.
Proof.
  rewrite resampleImage_run. destruct (decode env file) as [[w h]|].
  - destruct (canvasOf w h (FileHelper.scale options)). eexists. reflexivity.
  - eexists. reflexivity.
Qed.

(** X3.  For a file of a non-compressible type the guard of [compress]
    decides on [isValidSize] alone: a file that is not strictly smaller than
    the budget, one of exactly the budget's size included, is refused before
    anything is asked of the browser; a smaller one is loaded for the
    pre-pass. *)
Theorem compress_document_guard (env : Browser) (fuel : nat) (file : File)
  (budget : number) :
  includes nonCompressableFileTypes (type file) = true ->
  if FileHelper.isValidSize file budget
  then exists rest : list request,
         fst (compress env fuel file budget) = LoadImage file :: rest
  else compress env fuel file budget = ([], Rejected umbrella).
Proof.
  intros Htype. rewrite compress_run. unfold refused. rewrite Htype.
  destruct (FileHelper.isValidSize file budget); [|reflexivity].
  cbn [negb andb].
  destruct (resampleImage_first env file prepassOptions) as [rest Hrest].
  destruct (FileHelper.resampleImage env file prepassOptions) as [t [c|e|]];
    cbn [fst] in Hrest; subst t.
  - destruct (FileHelper.isValidSize c budget); [eexists; reflexivity|].
    destruct (FileHelper.compressImage env fuel c (searchOptions budget))
      as [t' [r|e|]]; eexists; reflexivity.
  - eexists. reflexivity.
  - eexists. reflexivity.
Qed.

Lemma compress_document_guard_witness :
  FileHelper.isValidSize Sample.pdf (Num.ofN (size Sample.pdf)) = false /\
  compress Sample.browser 10 Sample.pdf (Fin 3) = ([], Rejected umbrella).
Proof.
  split; [reflexivity|].
  apply (compress_document_guard Sample.browser 10 Sample.pdf (Fin 3)). reflexivity.
Defined.

(** X4.  A file the browser cannot load makes [compress] fail after that one
    attempt to load it (or before it, when the guard refuses the file):
    nothing is drawn or encoded, whatever the budget and the fuel. *)
Theorem compress_undecodable (env : Browser) (fuel : nat) (file : File)
  (budget : number) :
  decode env file = None ->
  compress env fuel file budget
  = (if refused file budget then [] else [LoadImage file], Rejected umbrella).
Proof.
  intros Hdecode. rewrite compress_run, resampleImage_run, Hdecode.
  now destruct (refused file budget).
Qed.

Lemma compress_undecodable_witness :
  compress Sample.browser 0 Sample.pdf (Fin 1000)
  = ([LoadImage Sample.pdf], Rejected umbrella).
Proof.
  apply (compress_undecodable Sample.browser 0 Sample.pdf (Fin 1000)). reflexivity.
Defined.

(** X5.  When the file of the pre-pass fits the budget, [compress] asks the
    browser for exactly one load, one draw and one serialisation, and returns
    that file: the search is not entered, so no fuel is needed. *)
Theorem compress_prepass_only (env : Browser) (fuel : nat) (file : File)
  (budget : number) (w h : N) :
  refused file budget = false ->
  decode env file = Some (w, h) ->
  let cw := fst (canvasOf w h (Fin 0.9)) in
  let ch := snd (canvasOf w h (Fin 0.9)) in
  let prepass :=
    newFile (serialize env (mkImage file w h) cw ch "image/jpeg" (Fin 1))
      (name file) (lastModified file) in
  FileHelper.isValidSize prepass budget = true ->
  compress env fuel file budget
  = ([LoadImage file; DrawImage (mkImage file w h) cw ch;
      ToBlob cw ch "image/jpeg" (Fin 1)], Resolved prepass).
Proof.
  intros Hguard Hdecode. cbv zeta. intros Hfit.
  rewrite compress_run, Hguard, resampleImage_run, Hdecode.
  unfold prepassOptions. cbn [FileHelper.scale FileHelper.quality FileHelper.targetType].
  destruct (canvasOf w h (Fin 0.9)) as [cw ch]. cbn [fst snd] in *.
  now rewrite Hfit.
Qed.

Lemma compress_prepass_only_witness :
  compress Sample.browser 0 Sample.png (Fin 1000)
  = ([LoadImage Sample.png; DrawImage (mkImage Sample.png 10 10) 9 9;
      ToBlob 9 9 "image/jpeg" (Fin 1)],
     Resolved (newFile (Sample.serialize (mkImage Sample.png 10 10) 9 9 "image/jpeg" (Fin 1))
                 "photo.png" 1700000000000)).
Proof.
  apply (compress_prepass_only Sample.browser 0 Sample.png (Fin 1000) 10 10);
    reflexivity.
Defined.

(** ** The [null] blob *)

(** The pre-pass file is the result of [compress] as soon as it fits. *)
Lemma prepass_result (env : Browser) (fuel : nat) (file : File)
  (budget : number) (w h : N) :
  refused file budget = false ->
  decode env file = Some (w, h) ->
  let prepass :=
    newFile (serialize env (mkImage file w h)
               (fst (canvasOf w h (Fin 0.9))) (snd (canvasOf w h (Fin 0.9)))
               "image/jpeg" (Fin 1))
      (name file) (lastModified file) in
  FileHelper.isValidSize prepass budget = true ->
  snd (compress env fuel file budget) = Resolved prepass.
Proof.
  intros Hguard Hdecode. cbv zeta. intros Hfit.
  rewrite compress_run, Hguard, resampleImage_run, Hdecode.
  unfold prepassOptions. cbn [FileHelper.scale FileHelper.quality FileHelper.targetType].
  destruct (canvasOf w h (Fin 0.9)) as [cw ch]. cbn [fst snd] in *.
  now rewrite Hfit.
Qed.

(** X6.  [resampleImage] does not fail when the browser hands [toBlob]'s
    callback the [null] blob (as it does for a canvas without pixels): it
    resolves with a file of four bytes, the characters of ["null"], with an
    empty type and the name and timestamp of the source. *)
Theorem resampleImage_null_blob (env : Browser) (file : File)
  (options : FileHelper.ResampleOptions) (w h : N) :
  decode env file = Some (w, h) ->
  serialize env (mkImage file w h)
    (fst (canvasOf w h (FileHelper.scale options)))
    (snd (canvasOf w h (FileHelper.scale options)))
    (match FileHelper.targetType options with Some t => t | None => "image/jpeg" end)
    (match FileHelper.quality options with Some q => q | None => Fin 1 end) = None ->
  snd (FileHelper.resampleImage env file options)
  = Resolved (nullFile (name file) (lastModified file)) /\
  size (nullFile (name file) (lastModified file)) = 4%N.
Proof.
  intros Hdecode Hnull. rewrite resampleImage_run, Hdecode.
  destruct (canvasOf w h (FileHelper.scale options)) as [cw ch]. cbn [fst snd] in *.
  rewrite Hnull. split; reflexivity.
Qed.

Lemma resampleImage_null_blob_witness :
  snd (FileHelper.resampleImage Sample.browser Sample.strip prepassOptions)
  = Resolved (nullFile "strip.jpg" 1700000000001) /\
  size (nullFile "strip.jpg" 1700000000001) = 4%N.
Proof.
  apply (resampleImage_null_blob Sample.browser Sample.strip prepassOptions 15 1);
    reflexivity.
Defined.

(** X7.  When the browser answers the pre-pass with the [null] blob and the
    budget is above four bytes, [compress] returns the four-byte file
    ["null"] as the compressed image. *)
Theorem compress_returns_null_file (env : Browser) (fuel : nat) (file : File)
  (budget : number) (w h : N) :
  refused file budget = false ->
  decode env file = Some (w, h) ->
  serialize env (mkImage file w h)
    (fst (canvasOf w h (Fin 0.9))) (snd (canvasOf w h (Fin 0.9)))
    "image/jpeg" (Fin 1) = None ->
  Num.lt (Fin 4) budget = true ->
  snd (compress env fuel file budget) = Resolved (nullFile (name file) (lastModified file)).
Proof.
  intros Hguard Hdecode Hnull Hbudget.
  pose proof (prepass_result env fuel file budget w h Hguard Hdecode) as H.
  cbv zeta in H. rewrite Hnull in H. apply H. exact Hbudget.
Qed.

Lemma compress_returns_null_file_witness :
  snd (compress Sample.browser 0 Sample.strip (Fin 5))
  = Resolved (nullFile "strip.jpg" 1700000000001).
Proof.
  apply (compress_returns_null_file Sample.browser 0 Sample.strip (Fin 5) 15 1);
    reflexivity.
Defined.

(** ** What the search encodes and returns *)

Section SearchInvariants.

Variable env : Browser.

Import FileHelper.

Lemma last_cons_nonempty (q d : number) (qs : list number) :
  qs <> [] -> last (q :: qs) d = last qs d.
Proof. destruct qs; [congruence | reflexivity]. Qed.

(** The file a search returns is the candidate of its last encoding. *)
Lemma compressImage_result (fuel : nat) :
  forall (file : File) (options : CompressOptions) (r : File),
    snd (compressImage env fuel file options) = Resolved r ->
    encodeQualities (fst (compressImage env fuel file options)) <> [] /\
    exists w h : N,
      decode env file = Some (w, h) /\
      r = newFile
            (serialize env (mkImage file w h)
               (fst (canvasOf w h (Fin 1))) (snd (canvasOf w h (Fin 1))) "image/jpeg"
               (last (encodeQualities (fst (compressImage env fuel file options))) NaN))
            (name file) (lastModified file).
Proof.
  induction fuel as [|fuel IH]; intros file options r; [discriminate|].
  rewrite compressImage_call.
  destruct (exhausted options); [discriminate|].
  destruct (decode env file) as [[w h]|] eqn:Hdecode; [|discriminate].
  destruct (canvasOf w h (Fin 1)) as [cw ch] eqn:Hcanvas. cbv zeta.
  match goal with |- context [isValidSize ?c ?m] => destruct (isValidSize c m) end.
  - intros [= <-]. split; [discriminate|].
    exists w, h. rewrite Hcanvas. split; reflexivity.
  - match goal with |- context [compressImage env fuel file ?o] =>
      specialize (IH file o r); destruct (compressImage env fuel file o) as [t' r'] end.
    cbn [fst snd] in *. intros Hr. destruct (IH Hr) as (Hne & w' & h' & Hd & Heq).
    rewrite encodeQualities_app.
    cbn [encodeQualities toBlobCalls flat_map map app snd].
    fold (toBlobCalls t'). fold (encodeQualities t').
    split; [discriminate|].
    exists w, h. split; [reflexivity|].
    rewrite last_cons_nonempty by exact Hne.
    rewrite Hdecode in Hd. injection Hd as <- <-.
    rewrite Hcanvas in *. exact Heq.
Qed.

(** Every request of a search concerns the file searched. *)
Lemma compressImage_requests (fuel : nat) :
  forall (file : File) (options : CompressOptions),
    Forall (searchRequest env file) (fst (compressImage env fuel file options)).
Proof.
  induction fuel as [|fuel IH]; intros file options; [constructor|].
  rewrite compressImage_call.
  destruct (exhausted options); [constructor|].
  destruct (decode env file) as [[w h]|] eqn:Hdecode;
    [|repeat constructor].
  destruct (canvasOf w h (Fin 1)) as [cw ch] eqn:Hcanvas. cbv zeta.
  assert (Hthree :
    Forall (searchRequest env file)
      [LoadImage file; DrawImage (mkImage file w h) cw ch;
       ToBlob cw ch "image/jpeg" (qualityOf options)]).
  { repeat constructor; cbn; try (now rewrite Hcanvas).
    exists w, h. now rewrite Hcanvas. }
  match goal with |- context [isValidSize ?c ?m] => destruct (isValidSize c m) end;
    [exact Hthree|].
  match goal with |- context [compressImage env fuel file ?o] =>
    specialize (IH file o); destruct (compressImage env fuel file o) as [t' r'] end.
  cbn [fst] in *. apply Forall_app. split; assumption.
Qed.

(** A search encodes only at qualities that passed the test at its top. *)
Lemma compressImage_encodes_searching (fuel : nat) :
  forall (file : File) (options : CompressOptions),
    Forall (fun q => Num.lt q (minQualityOf options) = false /\ Num.le q (Fin 0) = false)
      (encodeQualities (fst (compressImage env fuel file options))).
Proof.
  induction fuel as [|fuel IH]; intros file options; [constructor|].
  rewrite compressImage_call.
  destruct (exhausted options) eqn:Hgo; [constructor|].
  apply orb_false_elim in Hgo.
  destruct (decode env file) as [[w h]|]; [|constructor].
  destruct (canvasOf w h (Fin 1)) as [cw ch]. cbv zeta.
  match goal with |- context [isValidSize ?c ?m] => destruct (isValidSize c m) end;
    [repeat constructor; apply Hgo|].
  match goal with |- context [compressImage env fuel file ?o] =>
    specialize (IH file o); destruct (compressImage env fuel file o) as [t' r'] end.
  cbn [fst] in *. rewrite encodeQualities_app. apply Forall_app. split; [|exact IH].
  repeat constructor; apply Hgo.
Qed.

End SearchInvariants.

(** X8.  Every request of a search concerns the file it was given: each call
    loads and draws that file again, never an earlier candidate, on a canvas
    of the image's dimensions at scale 1, and has it serialised as
    ["image/jpeg"], whatever the type of the file. *)
Theorem search_reencodes_source (env : Browser) (fuel : nat) (file : File)
  (options : FileHelper.CompressOptions) :
  Forall (searchRequest env file) (fst (FileHelper.compressImage env fuel file options)).
Proof. apply compressImage_requests. Qed.

(** X9.  A search never encodes at a quality below the minimum quality, nor at
    a quality of zero or less: every quality handed to [toBlob] passed both
    tests. *)
Theorem search_respects_floor (env : Browser) (fuel : nat) (file : File)
  (options : FileHelper.CompressOptions) :
  Forall (fun q => Num.lt q (FileHelper.minQualityOf options) = false /\
                   Num.le q (Fin 0) = false)
    (encodeQualities (fst (FileHelper.compressImage env fuel file options))).
Proof. apply compressImage_encodes_searching. Qed.

(** X10.  The file a search returns is the candidate it encoded last: the
    source drawn at its own size and serialised as ["image/jpeg"] at the last
    quality of the run, under the name and timestamp of the source. *)
Theorem search_returns_last_candidate (env : Browser) (fuel : nat) (file : File)
  (options : FileHelper.CompressOptions) (r : File) :
  snd (FileHelper.compressImage env fuel file options) = Resolved r ->
  exists w h : N,
    decode env file = Some (w, h) /\
    r = newFile
          (serialize env (mkImage file w h)
             (fst (canvasOf w h (Fin 1))) (snd (canvasOf w h (Fin 1))) "image/jpeg"
             (last (encodeQualities (fst (FileHelper.compressImage env fuel file options)))
                NaN))
          (name file) (lastModified file).
Proof.
  intros H. exact (proj2 (compressImage_result env fuel file options r H)).
Qed.

Lemma search_returns_last_candidate_witness :
  exists w h : N,
    decode Sample.browser Sample.png = Some (w, h) /\
    Sample.searched60
    = newFile
        (serialize Sample.browser (mkImage Sample.png w h)
           (fst (canvasOf w h (Fin 1))) (snd (canvasOf w h (Fin 1))) "image/jpeg"
           (last (encodeQualities
                    (fst (FileHelper.compressImage Sample.browser 41 Sample.png
                            (searchOptions (Fin 60)))))
              NaN))
        (name Sample.png) (lastModified Sample.png).
Proof.
  apply (search_returns_last_candidate Sample.browser 41 Sample.png
           (searchOptions (Fin 60)) Sample.searched60).
  vm_compute. reflexivity.
Defined.

Lemma jpeg_or_null (env : Browser) (image : HTMLImageElement) (w h : Z)
  (quality : number) (n : string) (m : Z) :
  honoursJpeg env ->
  type (newFile (serialize env image w h "image/jpeg" quality) n m) = "image/jpeg" \/
  newFile (serialize env image w h "image/jpeg" quality) n m = nullFile n m.
Proof.
  intros Hjpeg.
  destruct (serialize env image w h "image/jpeg" quality) as [b|] eqn:Hb.
  - left. exact (Hjpeg image w h quality b Hb).
  - right. reflexivity.
Qed.

(** X11.  In a browser that answers a request for ["image/jpeg"] with a JPEG
    blob, a file [compress] returns is a JPEG, whatever the type of the
    source, and so passes [isValidFileType]; the one exception is the file
    built from the [null] blob. *)
Theorem compress_result_is_jpeg (env : Browser) (fuel : nat) (file : File)
  (budget : number) (r : File) :
  honoursJpeg env ->
  snd (compress env fuel file budget) = Resolved r ->
  (type r = "image/jpeg" /\ FileHelper.isValidFileType r = true) \/
  r = nullFile (name file) (lastModified file).
Proof.
  intros Hjpeg. rewrite compress_run.
  destruct (refused file budget); [discriminate|].
  assert (Hcase : forall x : File,
             type x = "image/jpeg" \/ x = nullFile (name file) (lastModified file) ->
             (type x = "image/jpeg" /\ FileHelper.isValidFileType x = true) \/
             x = nullFile (name file) (lastModified file)).
  { intros x [Hx | Hx]; [left | now right].
    split; [exact Hx|]. unfold FileHelper.isValidFileType. now rewrite Hx. }
  destruct (FileHelper.resampleImage env file prepassOptions) as [t [c|e|]] eqn:Hpre;
    try discriminate.
  assert (Hc : type c = "image/jpeg" \/ c = nullFile (name file) (lastModified file)).
  { rewrite resampleImage_run in Hpre.
    destruct (decode env file) as [[w h]|]; [|discriminate].
    destruct (canvasOf w h (FileHelper.scale prepassOptions)) as [cw ch].
    injection Hpre as _ <-. now apply jpeg_or_null. }
  destruct (FileHelper.isValidSize c budget).
  - intros [= <-]. now apply Hcase.
  - destruct (FileHelper.compressImage env fuel c (searchOptions budget))
      as [t' [r'|e|]] eqn:Hs; try discriminate.
    intros [= <-]. apply Hcase.
    destruct (compressImage_result env fuel c (searchOptions budget) r')
      as (_ & w & h & _ & ->); [now rewrite Hs|].
    destruct (resampleImage_keeps env file prepassOptions c) as [-> ->];
      [now rewrite Hpre|].
    now apply jpeg_or_null.
Qed.

Lemma sample_honoursJpeg : honoursJpeg Sample.browser.
Proof.
  intros image w h quality b. cbn [serialize Sample.browser]. unfold Sample.serialize.
  destruct ((w =? 0) || (h =? 0))%Z; [discriminate|].
  cbn. intros [= <-]. reflexivity.
Qed.

Lemma compress_result_is_jpeg_witness :
  (type Sample.compressed60 = "image/jpeg" /\
   FileHelper.isValidFileType Sample.compressed60 = true) \/
  Sample.compressed60 = nullFile (name Sample.png) (lastModified Sample.png).
Proof.
  apply (compress_result_is_jpeg Sample.browser 100 Sample.png (Fin 60)
           Sample.compressed60 sample_honoursJpeg).
  vm_compute. reflexivity.
Defined.

(** X12.  [isValidFileName] looks at the name only, and [compress] keeps the
    name: a file [compress] returns gets the verdict of its source, under any
    options. *)
Theorem compress_keeps_name_verdict (env : Browser) (fuel : nat) (file : File)
  (budget : number) (r : File) (options : IFileNameOptions) :
  snd (compress env fuel file budget) = Resolved r ->
  FileHelper.isValidFileName r options = FileHelper.isValidFileName file options.
Proof.
  intros H. destruct (compress_resolved env fuel file budget r H) as (_ & Hname & _).
  unfold FileHelper.isValidFileName. now rewrite Hname.
Qed.

Lemma compress_keeps_name_verdict_witness :
  FileHelper.isValidFileName Sample.compressed60 (mkFileNameOptions (Some (Fin 5)) None)
  = FileHelper.isValidFileName Sample.png (mkFileNameOptions (Some (Fin 5)) None).
Proof.
  apply (compress_keeps_name_verdict Sample.browser 100 Sample.png (Fin 60)).
  vm_compute. reflexivity.
Defined.

(** ** The canvas never grows *)

Lemma floor_bounds (n : N) (s : Q) :
  0 < s -> s <= 1 ->
  (0 <= Qfloor (inject_Z (Z.of_N n) * s) <= Z.of_N n)%Z.
Proof.
  intros Hs H1.
  assert (H0 : 0 <= inject_Z (Z.of_N n)).
  { change 0 with (inject_Z 0). rewrite <- Zle_Qle. lia. }
  set (x := inject_Z (Z.of_N n) * s).
  assert (Hx0 : 0 <= x) by (unfold x; nra).
  assert (Hxn : x <= inject_Z (Z.of_N n)) by (unfold x; nra).
  assert (Hlo : (0 <= Qfloor x)%Z) by (apply (Qfloor_resp_le 0 x Hx0)).
  assert (Hhi : (Qfloor x <= Z.of_N n)%Z).
  { rewrite <- (Qfloor_Z (Z.of_N n)). now apply Qfloor_resp_le. }
  lia.
Qed.

(** X13.  For a scale in (0, 1] and an image below 2^31 pixels a side,
    [resampleImage] never draws on a canvas larger than the image: neither
    the width nor the height of the canvas exceeds that of the image. *)
Theorem resampleImage_never_upscales (env : Browser) (file : File)
  (options : FileHelper.ResampleOptions) (w h : N) (s : Q) :
  decode env file = Some (w, h) ->
  FileHelper.scale options = Fin s ->
  0 < s -> s <= 1 ->
  (Z.of_N w <= 2147483647)%Z -> (Z.of_N h <= 2147483647)%Z ->
  exists (cw ch : Z) (type : string) (quality : number),
    toBlobCalls (fst (FileHelper.resampleImage env file options))
    = [(cw, ch, type, quality)] /\
    (0 <= cw <= Z.of_N w)%Z /\ (0 <= ch <= Z.of_N h)%Z.
Proof.
  intros Hdecode Hscale Hs H1 Hw Hh.
  rewrite resampleImage_run, Hdecode. unfold canvasOf. rewrite Hscale.
  rewrite !scaled_dimension by assumption.
  pose proof (floor_bounds w s Hs H1) as Hbw.
  pose proof (floor_bounds h s Hs H1) as Hbh.
  do 4 eexists. split; [reflexivity|]. split; assumption.
Qed.

Lemma resampleImage_never_upscales_witness :
  exists (cw ch : Z) (type : string) (quality : number),
    toBlobCalls (fst (FileHelper.resampleImage Sample.browser Sample.banner prepassOptions))
    = [(cw, ch, type, quality)] /\
    (0 <= cw <= 15)%Z /\ (0 <= ch <= 7)%Z.
Proof.
  apply (resampleImage_never_upscales Sample.browser Sample.banner prepassOptions 15 7 0.9);
    try reflexivity; vm_compute; discriminate.
Defined.

(** ** File names *)

(** X14.  A [maxLength] of zero or [NaN] is falsy and switches the length
    check off: the verdict is the one of the options without [maxLength], so
    no name is rejected as too long. *)
Theorem fileName_falsy_limit (file : File) (m : number) (re : option RegExp) :
  truthy m = false ->
  FileHelper.isValidFileName file (mkFileNameOptions (Some m) re)
  = FileHelper.isValidFileName file (mkFileNameOptions None re).
Proof.
  intros Hm. unfold FileHelper.isValidFileName. cbn [maxLength invalidChars].
  now rewrite Hm.
Qed.

Lemma fileName_falsy_limit_witness :
  FileHelper.isValidFileName Sample.png (mkFileNameOptions (Some (Fin 0)) None)
  = FileHelper.isValidFileName Sample.png (mkFileNameOptions None None).
Proof.
  apply (fileName_falsy_limit Sample.png (Fin 0) None). reflexivity.
Defined.

Lemma length_nonneg (s : string) : exists n : Q, lengthOf s = Fin n /\ 0 <= n.
Proof.
  unfold lengthOf, Num.ofN. eexists. split; [reflexivity|].
  change 0 with (inject_Z 0). rewrite <- Zle_Qle. lia.
Qed.

(** X15.  A negative [maxLength] rejects every name, the empty name included,
    with the reason ["max-length"], whatever the invalid characters are. *)
Theorem fileName_negative_limit (file : File) (m : number) (re : option RegExp) :
  Num.lt m (Fin 0) = true ->
  FileHelper.isValidFileName file (mkFileNameOptions (Some m) re)
  = mkFileNameValidationResult false (Some MaxLength).
Proof.
  intros Hm. unfold FileHelper.isValidFileName. cbn [maxLength invalidChars].
  destruct (length_nonneg (name file)) as (n & -> & Hn).
  destruct m as [| | |q]; try discriminate; [reflexivity|].
  cbn in Hm. apply Qltb_lt in Hm.
  assert (Htruthy : truthy (Fin q) = true).
  { cbn. destruct (Qeq_bool q 0) eqn:E; [|reflexivity].
    apply Qeq_bool_eq in E. lra. }
  assert (Hlt : Num.lt (Fin q) (Fin n) = true) by (apply Qltb_lt; lra).
  now rewrite Htruthy, Hlt.
Qed.

Lemma fileName_negative_limit_witness :
  FileHelper.isValidFileName (mkFile [] "" "" 0) (mkFileNameOptions (Some (Fin (-1))) None)
  = mkFileNameValidationResult false (Some MaxLength).
Proof.
  apply (fileName_negative_limit (mkFile [] "" "" 0) (Fin (-1)) None). reflexivity.
Defined.

(** X16.  A name [isValidFileName] accepts is within every truthy [maxLength]
    it was given (its length is not above it) and has no match of the invalid
    characters. *)
Theorem fileName_accepted (file : File) (options : IFileNameOptions) :
  result (FileHelper.isValidFileName file options) = true ->
  (forall m : number,
      maxLength options = Some m -> truthy m = true ->
      Num.lt m (lengthOf (name file)) = false) /\
  (forall re : RegExp, invalidChars options = Some re -> test re (name file) = false).
Proof.
  unfold FileHelper.isValidFileName. intros H. split.
  - intros m Hm Ht. rewrite Hm, Ht in H. cbn [andb] in H.
    destruct (Num.lt m (lengthOf (name file))); [discriminate | reflexivity].
  - intros re Hre. rewrite Hre in H.
    destruct (match maxLength options with
              | Some m => truthy m && Num.lt m (lengthOf (name file))
              | None => false
              end); [discriminate|].
    destruct (test re (name file)); [discriminate | reflexivity].
Qed.

Lemma fileName_accepted_witness :
  (forall m : number,
      Some (Fin 9) = Some m -> truthy m = true ->
      Num.lt m (lengthOf "photo.png") = false) /\
  (forall re : RegExp, Some Sample.slash = Some re -> test re "photo.png" = false).
Proof.
  apply (fileName_accepted Sample.png
           (mkFileNameOptions (Some (Fin 9)) (Some Sample.slash))).
  reflexivity.
Defined.

(** X17.  A verdict of [isValidFileName] carries a reason exactly when it
    rejects, and the length is checked first: the reason ["invalid-char"] is
    given only for a name that is not too long. *)
Theorem fileName_reason (file : File) (options : IFileNameOptions) :
  (result (FileHelper.isValidFileName file options) = true <->
   reason (FileHelper.isValidFileName file options) = None) /\
  (reason (FileHelper.isValidFileName file options) = Some InvalidChar ->
   forall m : number,
     maxLength options = Some m -> truthy m = true ->
     Num.lt m (lengthOf (name file)) = false).
Proof.
  unfold FileHelper.isValidFileName. split.
  - destruct (match maxLength options with
              | Some m => truthy m && Num.lt m (lengthOf (name file))
              | None => false
              end); [cbn; split; discriminate|].
    destruct (match invalidChars options with
              | Some re => test re (name file)
              | None => false
              end); cbn; split; congruence.
  - intros H m Hm Ht. rewrite Hm, Ht in H. cbn [andb] in H.
    destruct (Num.lt m (lengthOf (name file))); [discriminate | reflexivity].
Qed.

(** ** Budgets under which [compress] settles, and budgets under which it
    does not *)

Section Budgets.

Variable env : Browser.

Import FileHelper.

Lemma resampleImage_encodes_once (file : File) (options : ResampleOptions) :
  (List.length (toBlobCalls (fst (resampleImage env file options))) <= 1)%nat /\
  settled (snd (resampleImage env file options)) = true.
Proof.
  rewrite resampleImage_run. destruct (decode env file) as [[w h]|].
  - destruct (canvasOf w h (scale options)). split; [cbn; lia | reflexivity].
  - split; [cbn; lia | reflexivity].
Qed.

(** No file fits a negative budget or [NaN]. *)
Lemma never_fits (file : File) (budget : number) :
  unpayable budget -> isValidSize file budget = false.
Proof.
  intros [Hneg | ->]; [|reflexivity].
  unfold isValidSize, Num.ofN.
  destruct budget as [| | |m]; try discriminate; [reflexivity|].
  cbn in *. apply Qltb_lt in Hneg. apply Qltb_ge.
  assert (H0 : 0 <= inject_Z (Z.of_N (size file))).
  { change 0 with (inject_Z 0). rewrite <- Zle_Qle. lia. }
  lra.
Qed.

End Budgets.

Section Unpayable.

Variable env : Browser.

Import FileHelper.

(** Under a budget no file fits the decrement is zero, negative or [NaN]. *)
Lemma unpayable_step (budget : number) (candidateSize : N) :
  unpayable budget ->
  qualityStep budget candidateSize = NaN \/
  exists d : Q, qualityStep budget candidateSize = Fin d /\ d <= 0.
Proof.
  intros [Hneg | ->]; [|left; reflexivity]. right.
  unfold qualityStep, Num.ofN. set (s := inject_Z (Z.of_N candidateSize)).
  assert (Hs : 0 <= s).
  { unfold s. change 0 with (inject_Z 0). rewrite <- Zle_Qle. lia. }
  assert (Hsign : Num.sign s <> Lt).
  { unfold Num.sign. intros E. apply Qlt_alt in E. lra. }
  assert (Hzero : Num.min (Num.div (Fin 0.025) NegInf) (Fin 0.1) = Fin 0) by reflexivity.
  destruct budget as [| | |m]; try discriminate.
  - exists 0. split; [|lra]. cbn [Num.div].
    destruct (Num.sign s); [exact Hzero | congruence | exact Hzero].
  - cbn in Hneg. apply Qltb_lt in Hneg.
    assert (Hm : Num.sign m = Lt) by (now apply Qlt_alt).
    cbn [Num.div]. destruct (Num.sign s) eqn:E; [|congruence|].
    + rewrite Hm. exists 0. split; [exact Hzero | lra].
    + assert (Hspos : 0 < s) by (now apply Qgt_alt).
      assert (Hy : m / s < 0) by (apply Qlt_shift_div_r; [exact Hspos | lra]).
      assert (Hysign : Num.sign (m / s) = Lt) by (now apply Qlt_alt).
      cbn [Num.div]. rewrite Hysign.
      assert (Ha : 0.025 / (m / s) <= 0).
      { assert (Hprod : 0.025 / (m / s) * (m / s) == 0.025) by (field; lra).
        destruct (Qlt_le_dec 0 (0.025 / (m / s))) as [Hpos | Hle]; [|exact Hle].
        exfalso. nra. }
      exists (0.025 / (m / s)). split; [|exact Ha].
      cbn [Num.min Num.lt].
      assert (E' : Num.Qltb 0.1 (0.025 / (m / s)) = false) by (apply Qltb_ge; lra).
      now rewrite E'.
Qed.

(** A call that goes past the test at its top recurses on a quality that goes
    past it again, when the decrement is zero, negative or [NaN]. *)
Lemma keeps_searching (options : CompressOptions) (step : number) :
  exhausted options = false ->
  step = NaN \/ (exists d : Q, step = Fin d /\ d <= 0) ->
  exhausted (withQuality options (Num.sub (qualityOf options) step)) = false.
Proof.
  intros Hgo Hstep.
  change (Num.lt (Num.sub (qualityOf options) step) (minQualityOf options)
          || Num.le (Num.sub (qualityOf options) step) (Fin 0) = false).
  unfold exhausted in Hgo. apply orb_false_elim in Hgo as [Hmin Hzero].
  destruct Hstep as [-> | (d & -> & Hd)].
  - now destruct (qualityOf options).
  - destruct (qualityOf options) as [| | |x]; try discriminate.
    + reflexivity.
    + now destruct (minQualityOf options).
    + cbn [Num.sub]. cbn in Hzero. apply Qleb_gt in Hzero.
      apply orb_false_intro.
      * destruct (minQualityOf options) as [| | |mq]; try discriminate; try reflexivity.
        cbn in *. apply Qltb_ge in Hmin. apply Qltb_ge. lra.
      * cbn. apply Qleb_gt. lra.
Qed.

(** The search under such a budget, one call after the other. *)
Lemma search_pending (file : File) (w h : N) (fuel : nat) :
  decode env file = Some (w, h) ->
  forall options : CompressOptions,
    unpayable (maxSize options) ->
    exhausted options = false ->
    snd (compressImage env fuel file options) = Pending /\
    List.length (toBlobCalls (fst (compressImage env fuel file options))) = fuel.
Proof.
  intros Hdecode. induction fuel as [|fuel IH]; intros options Hbudget Hgo.
  - split; reflexivity.
  - rewrite compressImage_call, Hgo, Hdecode.
    destruct (canvasOf w h (Fin 1)) as [cw ch]. cbv zeta.
    rewrite never_fits by exact Hbudget.
    match goal with |- context [compressImage env fuel file ?o] =>
      destruct (IH o) as [Hp Hn]; [exact Hbudget | |
        destruct (compressImage env fuel file o) as [t' r'] ] end.
    + apply keeps_searching; [exact Hgo|]. now apply unpayable_step.
    + cbn [fst snd] in *. split; [exact Hp|].
      rewrite toBlobCalls_app, length_app. cbn. now rewrite Hn.
Qed.

End Unpayable.

(** X18.  Under a positive budget [compress] settles: with fuel for 41 calls
    of the search it resolves or rejects, after at most 41 serialisations of
    a canvas, the one of the pre-pass and at most 40 of the search, which
    starts at quality 1. *)
Theorem compress_settles (env : Browser) (fuel : nat) (file : File) (budget : number) :
  Num.lt (Fin 0) budget = true ->
  (41 <= fuel)%nat ->
  settled (snd (compress env fuel file budget)) = true /\
  (List.length (toBlobCalls (fst (compress env fuel file budget))) <= 41)%nat.
Proof.
  intros Hpos Hfuel. rewrite compress_run.
  destruct (refused file budget); [split; [reflexivity | cbn; lia]|].
  destruct (resampleImage_encodes_once env file prepassOptions) as [Hone Hset].
  destruct (FileHelper.resampleImage env file prepassOptions) as [t [c|e|]];
    cbn [fst snd] in *; try discriminate.
  - destruct (FileHelper.isValidSize c budget); [split; [reflexivity | cbn [fst]; lia]|].
    destruct (search_within_bound env fuel c (searchOptions budget) Hpos eq_refl)
      as [Hs Hn]; [exact Hfuel|].
    change (searchBound (FileHelper.qualityOf (searchOptions budget))) with 41%nat in Hn.
    destruct (FileHelper.compressImage env fuel c (searchOptions budget))
      as [t' [r|e|]]; cbn [fst snd] in *; try discriminate;
      (split; [reflexivity | rewrite toBlobCalls_app, length_app; lia]).
  - split; [reflexivity | lia].
Qed.

Lemma compress_settles_witness :
  settled (snd (compress Sample.browser 41 Sample.png (Fin 8))) = true /\
  (List.length (toBlobCalls (fst (compress Sample.browser 41 Sample.png (Fin 8)))) <= 41)%nat.
Proof.
  apply (compress_settles Sample.browser 41 Sample.png (Fin 8)); [reflexivity | lia].
Defined.

(** X19.  Under a negative budget, or the budget [NaN], a search that goes
    past the test at its top on a file the browser can load never settles: no
    candidate fits, and the quality never drops, so every call encodes and
    recurses.  Whatever the fuel, the run is pending after as many encodings
    as it had fuel. *)
Theorem search_never_settles (env : Browser) (fuel : nat) (file : File)
  (options : FileHelper.CompressOptions) (w h : N) :
  unpayable (FileHelper.maxSize options) ->
  exhausted options = false ->
  decode env file = Some (w, h) ->
  snd (FileHelper.compressImage env fuel file options) = Pending /\
  List.length (toBlobCalls (fst (FileHelper.compressImage env fuel file options))) = fuel.
Proof.
  intros Hbudget Hgo Hdecode.
  exact (search_pending env file w h fuel Hdecode options Hbudget Hgo).
Qed.

Lemma search_never_settles_witness :
  snd (FileHelper.compressImage Sample.browser 50 Sample.png (searchOptions (Fin (-1))))
  = Pending /\
  List.length
    (toBlobCalls
       (fst (FileHelper.compressImage Sample.browser 50 Sample.png
               (searchOptions (Fin (-1)))))) = 50%nat.
Proof.
  apply (search_never_settles Sample.browser 50 Sample.png (searchOptions (Fin (-1))) 10 10);
    [left; reflexivity | reflexivity | reflexivity].
Defined.

(** X20.  [compress] itself never settles under a negative budget or the
    budget [NaN], for a file that is not of a non-compressible type when the
    browser can load both the file and the file of the pre-pass: the call
    neither returns nor throws. *)
Theorem compress_never_settles (env : Browser) (fuel : nat) (file : File)
  (budget : number) (w h w' h' : N) :
  unpayable budget ->
  includes nonCompressableFileTypes (type file) = false ->
  decode env file = Some (w, h) ->
  decode env
    (newFile (serialize env (mkImage file w h)
                (fst (canvasOf w h (Fin 0.9))) (snd (canvasOf w h (Fin 0.9)))
                "image/jpeg" (Fin 1))
       (name file) (lastModified file)) = Some (w', h') ->
  snd (compress env fuel file budget) = Pending.
Proof.
  intros Hbudget Htype Hdecode Hdecode'.
  rewrite compress_run. unfold refused. rewrite Htype, andb_false_r.
  rewrite resampleImage_run, Hdecode.
  unfold prepassOptions. cbn [FileHelper.scale FileHelper.quality FileHelper.targetType].
  destruct (canvasOf w h (Fin 0.9)) as [cw ch]. cbn [fst snd] in *.
  rewrite never_fits by exact Hbudget.
  match goal with |- context [FileHelper.compressImage env fuel ?c ?o] =>
    destruct (search_pending env c w' h' fuel Hdecode' o Hbudget eq_refl) as [Hp _];
    destruct (FileHelper.compressImage env fuel c o) as [t' r'] end.
  cbn [snd] in Hp. now subst r'.
Qed.

Lemma compress_never_settles_witness :
  snd (compress Sample.browser 50 Sample.png NaN) = Pending.
Proof.
  apply (compress_never_settles Sample.browser 50 Sample.png NaN 10 10 9 9);
    [right; reflexivity | reflexivity | reflexivity | reflexivity].
Defined.
